(** * A/B-testing utilities: a shallow embedding of [utils.py]

    The four functions of [utils.py] ([calculate_sample_size],
    [check_sample_ratio_mismatch], [analyze_conversion_rate] and
    [segmentation_analysis]) are embedded as Rocq functions over

    - binary64 floating-point numbers (the kernel's primitive floats, which
      are the IEEE 754 doubles that Python's [float] and NumPy's [float64]
      both are),
    - a four-way numeric tower that keeps Python scalars and NumPy scalars
      apart (they differ on division by zero),
    - a small monad for the two effects of the code: raising an exception
      and printing a line,
    - the library functions the code calls (SciPy's distribution functions,
      the C library's [pow] behind [**], [str.upper], ...) taken as given. *)

From Stdlib Require Import Reals Lra.
From Stdlib Require Import ZArith List String Bool Lia Floats Sorted.
From Stdlib Require OrderedTypeEx.
Import ListNotations.

#[local] Set Warnings "-inexact-float".
#[local] Open Scope Z_scope.

(** ** Exceptions and results *)

(** The exceptions the code and its library calls can raise.  [DomainError]
    is the error kind of the specification; only the specification's
    two-proportion z-test raises it. *)
Inductive exn : Type :=
| ZeroDivisionError
| OverflowError
| ValueError
| KeyError (key : string)
| DomainError.

Inductive result (A : Type) : Type :=
| Ok (a : A)
| Raise (e : exn).
Arguments Ok {A} a.
Arguments Raise {A} e.

(** ** Numbers *)

(** The conversion of an integer to a float, rounded to nearest even. *)
Definition of_Z (n : Z) : float := SF2Prim (binary_normalize prec emax n 0 false).

(** Python [int] and [float], and NumPy [int64] and [float64] scalars. *)
Inductive num : Type :=
| PyInt (n : Z)
| PyFloat (x : float)
| NpInt (n : Z)
| NpFloat (x : float).

(** Two's-complement wrap-around of [int64] arithmetic. *)
Definition wrap64 (n : Z) : Z := (n + 2 ^ 63) mod 2 ^ 64 - 2 ^ 63.

Definition to_float (a : num) : float :=
  match a with
  | PyInt n | NpInt n => of_Z n
  | PyFloat x | NpFloat x => x
  end.

Definition is_numpy (a : num) : bool :=
  match a with
  | NpInt _ | NpFloat _ => true
  | PyInt _ | PyFloat _ => false
  end.

(** [a + b], [a - b], [a * b]: integers stay integers, a NumPy operand makes
    the result a NumPy scalar, and none of the three raises. *)
Definition arith (fz : Z -> Z -> Z) (ff : float -> float -> float) (a b : num) : num :=
  match a, b with
  | PyInt m, PyInt n => PyInt (fz m n)
  | PyInt m, NpInt n | NpInt m, PyInt n | NpInt m, NpInt n => NpInt (wrap64 (fz m n))
  | _, _ =>
      if is_numpy a || is_numpy b
      then NpFloat (ff (to_float a) (to_float b))
      else PyFloat (ff (to_float a) (to_float b))
  end.

Definition add : num -> num -> num := arith Z.add PrimFloat.add.
Definition sub : num -> num -> num := arith Z.sub PrimFloat.sub.
Definition mul : num -> num -> num := arith Z.mul PrimFloat.mul.

(** [a / b].  Between Python scalars a zero divisor raises
    [ZeroDivisionError]; with a NumPy operand the quotient is the IEEE one
    (an infinity or a NaN, and a warning). *)
Definition truediv (a b : num) : result num :=
  if is_numpy a || is_numpy b then Ok (NpFloat (to_float a / to_float b))
  else if is_zero (to_float b) then Raise ZeroDivisionError
  else Ok (PyFloat (to_float a / to_float b)).

Definition is_int (a : num) : bool :=
  match a with
  | PyInt _ | NpInt _ => true
  | PyFloat _ | NpFloat _ => false
  end.

Definition int_val (a : num) : Z :=
  match a with
  | PyInt n | NpInt n => n
  | PyFloat _ | NpFloat _ => 0
  end.

(** [a < b], [a > b] and [a >= b]; false when an operand is a NaN. *)
Definition lt (a b : num) : bool :=
  if is_int a && is_int b then int_val a <? int_val b
  else (to_float a <? to_float b)%float.
Definition gt (a b : num) : bool := lt b a.
Definition ge (a b : num) : bool :=
  if is_int a && is_int b then int_val b <=? int_val a
  else (to_float b <=? to_float a)%float.

Definition np_sqrt (a : num) : num := NpFloat (PrimFloat.sqrt (to_float a)).

(** The least integer not below a finite float (0 on the others). *)
Definition Zceil (x : float) : Z :=
  match Prim2SF x with
  | S754_finite s m e =>
      let v := cond_Zopp s (Zpos m) in
      if 0 <=? e then v * 2 ^ e else - ((- v) / 2 ^ (- e))
  | _ => 0
  end.

(** [int(np.ceil(a))]: [np.ceil] keeps infinities and NaNs, which [int]
    refuses; on a finite number both steps are exact. *)
Definition int_ceil (a : num) : result Z :=
  let x := to_float a in
  if is_nan x then Raise ValueError
  else if is_infinity x then Raise OverflowError
  else Ok (Zceil x).

(** [np.rint]: the nearest integral float, ties to even. *)
Definition two52 : float := 4503599627370496%float.

Definition rint (x : float) : float :=
  if is_nan x || (two52 <=? PrimFloat.abs x)%float then x
  else if get_sign x then (- ((PrimFloat.abs x + two52) - two52))%float
  else ((x + two52) - two52)%float.

(** [.round(4)] on a float column: [rint(x * 10**4) / 10**4]. *)
Definition round4 (x : float) : float := (rint (x * 10000) / 10000)%float.

(** ** Printing and raising *)

(** A printed line: the f-string's text with its replacement fields left as
    [{format}] holes, and the values of the fields in order.  Turning a
    value into digits is left to the formatter. *)
Inductive arg : Type :=
| Str (s : string)
| Num (a : num).

Record line : Type := Line { template : string; fields : list arg }.

(** A computation reads the lines printed so far and either returns or
    raises, having printed some more lines. *)
Definition io (A : Type) : Type := list line -> result A * list line.

Definition ret {A} (a : A) : io A := fun out => (Ok a, out).
Definition bind {A B} (m : io A) (k : A -> io B) : io B :=
  fun out =>
    match m out with
    | (Ok a, out') => k a out'
    | (Raise e, out') => (Raise e, out')
    end.
Definition lift {A} (r : result A) : io A := fun out => (r, out).
Definition div (a b : num) : io num := lift (truediv a b).
Definition print (t : string) (fs : list arg) : io unit :=
  fun out => (Ok tt, out ++ [Line t fs]).
Definition run {A} (m : io A) : result A * list line := m [].

Notation "x <- m ;; k" := (bind m (fun x => k))
  (at level 61, m at next level, right associativity).
Notation "m ;; k" := (bind m (fun _ => k))
  (at level 61, right associativity).

(** ** Experiment data *)

(** One row of the experiment frame.  [attr] gives the value of each
    categorical (segment) column of the row. *)
Record row : Type := Row {
  variant : string;
  converted : bool;
  order_value : float;
  attr : string -> string
}.

Definition DataFrame : Type := list row.

Definition control : string := "control".
Definition treatment : string := "treatment".

Definition with_variant (v : string) (df : DataFrame) : DataFrame :=
  filter (fun r => String.eqb (variant r) v) df.

Definition len {A} (l : list A) : Z := Z.of_nat (List.length l).

(** [Series.sum()] of the [converted] column: the number of conversions. *)
Definition sum_converted (df : DataFrame) : Z := len (filter converted df).

(** [df['variant'].value_counts().get(v, 0)]: the count as an [int64] when
    the label occurs, the Python default 0 when it does not. *)
Definition value_counts_get (df : DataFrame) (v : string) : num :=
  match with_variant v df with
  | [] => PyInt 0
  | g => NpInt (len g)
  end.

(** ** Library functions

    The distribution functions of [scipy.stats], the confidence interval of
    [statsmodels], the float summation of a pandas group, the C library's
    [pow] and Python's [str.upper] are not part of the sources: the
    embedding takes them as given.

    Of [pow], which is what [**] calls on a Python [float] and on a NumPy
    [float64] and which is not correctly rounded, the embedding keeps what
    C (Annex F) and IEEE 754 fix for the exponent 2: a NaN gives a NaN, a
    zero gives +0, an infinity gives +Infinity, 1 gives 1, and the square
    of a number is a number that is not below zero. *)

(** A number (not a NaN) that is not below zero. *)
Definition nonneg_sf (x : spec_float) : bool :=
  match x with
  | S754_zero _ => true
  | S754_infinity s => negb s
  | S754_finite s _ _ => negb s
  | S754_nan => false
  end.

Record Lib : Type := {
  norm_ppf : float -> float;            (* stats.norm.ppf *)
  norm_cdf : float -> float;            (* stats.norm.cdf *)
  chi2_cdf : float -> float;            (* stats.chi2.cdf(x, df=1) *)
  proportion_confint : Z -> Z -> float -> float * float;
  sum_float : list float -> float;      (* the 'sum' aggregate of a float column *)
  libm_pow : float -> float -> float;   (* pow(x, y) of the C library *)
  str_upper : string -> string;         (* str.upper *)
  libm_pow_nan : forall x, is_nan x = true -> is_nan (libm_pow x 2) = true;
  libm_pow_nonneg :
    forall x, is_nan x = false -> nonneg_sf (Prim2SF (libm_pow x 2)) = true;
  libm_pow_zero : forall x, is_zero x = true -> libm_pow x 2 = 0%float;
  libm_pow_infinity : forall x, is_infinity x = true -> libm_pow x 2 = infinity;
  libm_pow_one : libm_pow 1 2 = 1%float
}.

(** [a ** 2].  On integers it is the product; on floats it is [pow(a, 2.0)].
    A Python float raises [OverflowError] when the power of a finite number
    overflows; a NumPy scalar becomes infinite. *)
Definition pow2 (L : Lib) (a : num) : result num :=
  match a with
  | PyInt n => Ok (PyInt (n * n))
  | NpInt n => Ok (NpInt (wrap64 (n * n)))
  | NpFloat x => Ok (NpFloat (libm_pow L x 2))
  | PyFloat x =>
      if is_finite x && is_infinity (libm_pow L x 2) then Raise OverflowError
      else Ok (PyFloat (libm_pow L x 2))
  end.

(** ** [calculate_sample_size] *)

Definition calculate_sample_size (L : Lib)
    (baseline_rate minimum_effect alpha power : float) : io Z :=
  let p1 := PyFloat baseline_rate in
  let p2 := add (PyFloat baseline_rate) (PyFloat minimum_effect) in
  p_pooled <- lift (truediv (add p1 p2) (PyInt 2)) ;;
  let se_coefficient :=
    np_sqrt (mul (mul (PyInt 2) p_pooled) (sub (PyInt 1) p_pooled)) in
  half_alpha <- lift (truediv (PyFloat alpha) (PyInt 2)) ;;
  let z_alpha := NpFloat (norm_ppf L (to_float (sub (PyInt 1) half_alpha))) in
  let z_beta := NpFloat (norm_ppf L power) in
  q <- lift (truediv (mul (add z_alpha z_beta) se_coefficient) (PyFloat minimum_effect)) ;;
  n <- lift (pow2 L q) ;;
  lift (int_ceil n).

(** ** [check_sample_ratio_mismatch] *)

Definition check_sample_ratio_mismatch (L : Lib)
    (df : DataFrame) (expected_ratio alpha : float) : io bool :=
  let control_count := value_counts_get df control in
  let treatment_count := value_counts_get df treatment in
  let total := add control_count treatment_count in
  let expected_control := mul total (PyFloat expected_ratio) in
  let expected_treatment := mul total (sub (PyInt 1) (PyFloat expected_ratio)) in
  d_control <- lift (pow2 L (sub control_count expected_control)) ;;
  cell_control <- lift (truediv d_control expected_control) ;;
  d_treatment <- lift (pow2 L (sub treatment_count expected_treatment)) ;;
  cell_treatment <- lift (truediv d_treatment expected_treatment) ;;
  let chi2_stat := add cell_control cell_treatment in
  let p_value := sub (PyInt 1) (NpFloat (chi2_cdf L (to_float chi2_stat))) in
  print "   Sample Ratio Mismatch Check:" [] ;;
  share_control <- lift (truediv control_count total) ;;
  print "   Control: {:,} ({:.1%})" [Num control_count; Num share_control] ;;
  share_treatment <- lift (truediv treatment_count total) ;;
  print "   Treatment: {:,} ({:.1%})" [Num treatment_count; Num share_treatment] ;;
  print "   Expected split: {:.1%} / {:.1%}"
    [Num (PyFloat expected_ratio); Num (sub (PyInt 1) (PyFloat expected_ratio))] ;;
  print "   Chi-square statistic: {:.4f}" [Num chi2_stat] ;;
  print "   P-value: {:.6f}" [Num p_value] ;;
  print "   Result: {}"
    [Str (if gt p_value (PyFloat alpha) then "PASS" else "FAIL - INVESTIGATE")] ;;
  ret (gt p_value (PyFloat alpha)).

(** ** The two-proportion z-test *)

(** Modelled from the spec: [proportions_ztest] of statsmodels, which the
    sources import and call, is not among them.  Section 4.1 gives it as
    [two_proportion_z_test]: with [p_pool = (successes_a + successes_b) /
    (trials_a + trials_b)] and [SE = sqrt(p_pool (1 - p_pool) (1/trials_a +
    1/trials_b))] it returns [z = (rate_a - rate_b) / SE] and
    [p = 2 (1 - Phi(|z|))], and it fails with a DomainError if a trial count
    is zero.  The arithmetic is NumPy's. *)
Definition pooled_se (successes_a trials_a successes_b trials_b : Z) : float :=
  let p_pool := (of_Z (successes_a + successes_b) / of_Z (trials_a + trials_b))%float in
  PrimFloat.sqrt (p_pool * (1 - p_pool) * (1 / of_Z trials_a + 1 / of_Z trials_b))%float.

Definition z_statistic (successes_a trials_a successes_b trials_b : Z) : float :=
  let rate_a := (of_Z successes_a / of_Z trials_a)%float in
  let rate_b := (of_Z successes_b / of_Z trials_b)%float in
  ((rate_a - rate_b) / pooled_se successes_a trials_a successes_b trials_b)%float.

Definition two_proportion_z_test (L : Lib)
    (successes_a trials_a successes_b trials_b : Z) : result (num * num) :=
  if (trials_a =? 0) || (trials_b =? 0) then Raise DomainError
  else
    let z := z_statistic successes_a trials_a successes_b trials_b in
    Ok (NpFloat z, NpFloat (2 * (1 - norm_cdf L (PrimFloat.abs z)))%float).

(** ** [analyze_conversion_rate] *)

(** A row of [conversion_summary], with the column names the code gives. *)
Record summary_row : Type := SummaryRow {
  sessions : num;
  conversions : num;
  conversion_rate : num;
  total_revenue : num;
  revenue_per_user : num
}.

(** The group keys of [groupby('variant')]: the labels that occur, sorted. *)
Fixpoint insert_key (k : string) (ks : list string) : list string :=
  match ks with
  | [] => [k]
  | k' :: ks' =>
      match String.compare k k' with
      | Lt => k :: ks
      | Eq => ks
      | Gt => k' :: insert_key k ks'
      end
  end.

Definition group_keys (df : DataFrame) : list string :=
  fold_right insert_key [] (map variant df).

(** Lines 85 to 94: count, sum and mean of [converted] and the sum of
    [order_value] per variant, the float columns rounded to 4 decimals, then
    the revenue per user from the rounded revenue. *)
Definition summarize (L : Lib) (g : DataFrame) : summary_row :=
  let count := len g in
  let total := sum_converted g in
  let mean := (of_Z total / of_Z count)%float in
  let revenue := round4 (sum_float L (map order_value g)) in
  {| sessions := NpInt count;
     conversions := NpInt total;
     conversion_rate := NpFloat (round4 mean);
     total_revenue := NpFloat revenue;
     revenue_per_user := NpFloat (revenue / of_Z count) |}.

Definition conversion_summary_of (L : Lib) (df : DataFrame) : list (string * summary_row) :=
  map (fun k => (k, summarize L (with_variant k df))) (group_keys df).

(** [frame.loc[key, column]]. *)
Definition loc (frame : list (string * summary_row)) (key : string)
    (column : summary_row -> num) : io num :=
  match find (fun kr => String.eqb (fst kr) key) frame with
  | Some kr => ret (column (snd kr))
  | None => lift (Raise (KeyError key))
  end.

Fixpoint str_mul (s : string) (n : nat) : string :=
  match n with
  | O => ""
  | S n' => s ++ str_mul s n'
  end.

(** Python's [min(a, b)]: the first of the least. *)
Definition min_ (a b : num) : num := if lt b a then b else a.

(** The three lines printed before the summary is read. *)
Definition analysis_header : list line :=
  [ Line "PRIMARY METRIC: CONVERSION RATE" [];
    Line "==================================================" [];
    Line "" [] ].

Definition yes_no (b : bool) : string := if b then " YES" else "❌ NO".

Definition analyze_conversion_rate (L : Lib) (df : DataFrame)
    : io (list (string * summary_row) * num * num * num) :=
  let conversion_summary := conversion_summary_of L df in
  print "PRIMARY METRIC: CONVERSION RATE" [] ;;
  print (str_mul "=" 50) [] ;;
  print "" [] ;;
  control_conv <- loc conversion_summary control conversions ;;
  control_sessions <- loc conversion_summary control sessions ;;
  treatment_conv <- loc conversion_summary treatment conversions ;;
  treatment_sessions <- loc conversion_summary treatment sessions ;;
  control_rate <- div control_conv control_sessions ;;
  treatment_rate <- div treatment_conv treatment_sessions ;;
  test <- lift (two_proportion_z_test L
                  (int_val treatment_conv) (int_val treatment_sessions)
                  (int_val control_conv) (int_val control_sessions)) ;;
  let z_stat := fst test in
  let p_value := snd test in
  let control_ci :=
    proportion_confint L (int_val control_conv) (int_val control_sessions) 0.05%float in
  let treatment_ci :=
    proportion_confint L (int_val treatment_conv) (int_val treatment_sessions) 0.05%float in
  let absolute_lift := sub treatment_rate control_rate in
  ratio <- div treatment_rate control_rate ;;
  let relative_lift := mul (sub ratio (PyInt 1)) (PyInt 100) in
  var_treatment <- div (mul treatment_rate (sub (PyInt 1) treatment_rate)) treatment_sessions ;;
  var_control <- div (mul control_rate (sub (PyInt 1) control_rate)) control_sessions ;;
  let absolute_lift_se := np_sqrt (add var_treatment var_control) in
  let absolute_lift_ci :=
    (sub absolute_lift (mul (PyFloat 1.96) absolute_lift_se),
     add absolute_lift (mul (PyFloat 1.96) absolute_lift_se)) in
  let observed_effect := absolute_lift in
  pooled_p <- div (add control_conv treatment_conv) (add control_sessions treatment_sessions) ;;
  pooled_var <- div (mul (mul (PyInt 2) pooled_p) (sub (PyInt 1) pooled_p))
                    (min_ control_sessions treatment_sessions) ;;
  let pooled_se := np_sqrt pooled_var in
  effect_in_se <- div observed_effect pooled_se ;;
  let observed_power :=
    sub (PyInt 1) (NpFloat (norm_cdf L (to_float (sub (PyFloat 1.96) effect_in_se)))) in
  print " Statistical Test Results:" [] ;;
  print "   Control conversion rate:    {:.3%}" [Num control_rate] ;;
  print "   Treatment conversion rate:  {:.3%}" [Num treatment_rate] ;;
  print "   95% CI Control:             [{:.3%}, {:.3%}]"
    [Num (NpFloat (fst control_ci)); Num (NpFloat (snd control_ci))] ;;
  print "   95% CI Treatment:           [{:.3%}, {:.3%}]"
    [Num (NpFloat (fst treatment_ci)); Num (NpFloat (snd treatment_ci))] ;;
  print "" [] ;;
  print " Effect Size:" [] ;;
  print "   Absolute lift:              +{:.3%}" [Num absolute_lift] ;;
  print "   Relative lift:              +{:.1f}%" [Num relative_lift] ;;
  print "   Absolute lift CI:           {:.3%} to {:.3%}"
    [Num (fst absolute_lift_ci); Num (snd absolute_lift_ci)] ;;
  print "" [] ;;
  print "Statistical Significance:" [] ;;
  print "   Z-statistic:                {:.4f}" [Num z_stat] ;;
  print "   P-value:                    {:.6f}" [Num p_value] ;;
  print "   Significant (α=0.05):       {}" [Str (yes_no (lt p_value (PyFloat 0.05)))] ;;
  print "   Observed power:             {:.1%}" [Num observed_power] ;;
  print " Revenue Per User:" [] ;;
  rpu_control <- loc conversion_summary control revenue_per_user ;;
  print "   Control:                    ${:.2f}" [Num rpu_control] ;;
  rpu_treatment <- loc conversion_summary treatment revenue_per_user ;;
  print "   Treatment:                  ${:.2f}" [Num rpu_treatment] ;;
  rpu_treatment' <- loc conversion_summary treatment revenue_per_user ;;
  rpu_control' <- loc conversion_summary control revenue_per_user ;;
  rpu_ratio <- div rpu_treatment' rpu_control' ;;
  print "   Revenue lift:               {:.2f}%"
    [Num (mul (sub rpu_ratio (PyInt 1)) (PyInt 100))] ;;
  ret (conversion_summary, p_value, absolute_lift, relative_lift).

(** ** [segmentation_analysis] *)

(** A row of the returned frame, with the keys of the appended dict. *)
Record segment_result : Type := SegmentResult {
  segment : string;
  control_sessions : num;
  treatment_sessions : num;
  control_rate : num;
  treatment_rate : num;
  absolute_lift : num;
  relative_lift : num;
  p_value : num;
  significant : bool
}.

(** [Series.unique()]: the distinct values in the order of first occurrence. *)
Fixpoint unique (l : list string) : list string :=
  match l with
  | [] => []
  | x :: l' => x :: filter (fun y => negb (String.eqb y x)) (unique l')
  end.

(** A [for] loop whose body updates the loop state. *)
Fixpoint for_each {A S : Type} (xs : list A) (body : A -> S -> io S) (s : S) : io S :=
  match xs with
  | [] => ret s
  | x :: xs' => s' <- body x s ;; for_each xs' body s'
  end.

Definition in_segment (segment_col seg : string) (df : DataFrame) : DataFrame :=
  filter (fun r => String.eqb (attr r segment_col) seg) df.

Definition sig_label (b : bool) : string := if b then " SIG" else " NS".

(** The body of the loop, lines 189 to 232; [segment_results] is the list the
    loop appends to. *)
Definition segment_body (L : Lib) (df : DataFrame) (segment_col : string)
    (min_sample_size : Z) (seg : string) (segment_results : list segment_result)
    : io (list segment_result) :=
  let segment_data := in_segment segment_col seg df in
  let control_segment := with_variant control segment_data in
  let treatment_segment := with_variant treatment segment_data in
  let control_conversions := NpInt (sum_converted control_segment) in
  let control_sessions := PyInt (len control_segment) in
  let treatment_conversions := NpInt (sum_converted treatment_segment) in
  let treatment_sessions := PyInt (len treatment_segment) in
  if ge control_sessions (PyInt min_sample_size)
     && ge treatment_sessions (PyInt min_sample_size)
     && ge control_conversions (PyInt 5)
     && ge treatment_conversions (PyInt 5)
  then
    control_rate <- div control_conversions control_sessions ;;
    treatment_rate <- div treatment_conversions treatment_sessions ;;
    test <- lift (two_proportion_z_test L
                    (int_val treatment_conversions) (int_val treatment_sessions)
                    (int_val control_conversions) (int_val control_sessions)) ;;
    let p_value := snd test in
    let absolute_lift := sub treatment_rate control_rate in
    relative_lift <-
      (if gt control_rate (PyInt 0)
       then ratio <- div treatment_rate control_rate ;;
            ret (mul (sub ratio (PyInt 1)) (PyInt 100))
       else ret (PyInt 0)) ;;
    let appended := segment_results ++
      [{| segment := seg;
          control_sessions := control_sessions;
          treatment_sessions := treatment_sessions;
          control_rate := control_rate;
          treatment_rate := treatment_rate;
          absolute_lift := absolute_lift;
          relative_lift := relative_lift;
          p_value := p_value;
          significant := lt p_value (PyFloat 0.05) |}] in
    let significance := sig_label (lt p_value (PyFloat 0.05)) in
    print "{:12} | Control: {:.1%} | Treatment: {:.1%} | Lift: {:+.1f}% | p={:.3f} | {}"
      [Str seg; Num control_rate; Num treatment_rate; Num relative_lift;
       Num p_value; Str significance] ;;
    ret appended
  else
    print "{:12} | Insufficient sample size for reliable testing" [Str seg] ;;
    ret segment_results.

Definition segmentation_analysis (L : Lib) (df : DataFrame) (segment_col : string)
    (min_sample_size : Z) : io (list segment_result) :=
  print " SEGMENTATION ANALYSIS: {}" [Str (str_upper L segment_col)] ;;
  print (str_mul "=" 60) [] ;;
  let segments := unique (map (fun r => attr r segment_col) df) in
  segment_results <- for_each segments (segment_body L df segment_col min_sample_size) [] ;;
  print "" [] ;;
  ret segment_results.

(** The line printed for a segment that is not tested. *)
Definition insufficient_line (seg : string) : line :=
  Line "{:12} | Insufficient sample size for reliable testing" [Str seg].

(** ** Sample points of the library functions

    The values of SciPy's distribution functions at the arguments the
    examples below use (NaN elsewhere), a plain left-to-right float sum, an
    interval that is not looked at, a [pow] that rounds the square
    correctly and the upper case of ASCII letters: an instance of [Lib] to
    run the embedding on concrete inputs. *)
Definition table (t : list (float * float)) (x : float) : float :=
  match find (fun p => (fst p =? x)%float) t with
  | Some p => snd p
  | None => nan
  end.

(** The upper case of a string of ASCII characters: on these [str.upper]
    changes the letters a to z and nothing else. *)
Definition ascii_upper_char (c : Ascii.ascii) : Ascii.ascii :=
  let n := Ascii.nat_of_ascii c in
  if (97 <=? n)%nat && (n <=? 122)%nat then Ascii.ascii_of_nat (n - 32) else c.

Fixpoint ascii_upper (s : string) : string :=
  match s with
  | EmptyString => EmptyString
  | String c s' => String (ascii_upper_char c) (ascii_upper s')
  end.

(** A [pow] that rounds the square correctly (the C library need not). *)
Definition rounded_pow (x y : float) : float :=
  if (y =? 2)%float then (x * x)%float else nan.

Definition Samples : Lib.
Proof.
  refine {|
    norm_ppf := table [(0.975, 1.959963984540054); (0.8, 0.8416212335729143);
                       (0.75, 0.6744897501960817); (0.25, -0.6744897501960817);
                       (0.1, -1.2815515655446004)]%float;
    norm_cdf := table [(0, 0.5)]%float;
    chi2_cdf := table [(0, 0); (infinity, 1)]%float;
    proportion_confint := fun _ _ _ => (nan, nan);
    sum_float := fun l => fold_left PrimFloat.add l 0%float;
    libm_pow := rounded_pow;
    str_upper := ascii_upper
  |}.
  - (* the square of a NaN is a NaN *)
    intros x. unfold rounded_pow, is_nan. change (2 =? 2)%float with true. cbv iota.
    rewrite !eqb_spec, mul_spec. unfold SFeqb, SFcompare, SF64mul, SFmul.
    destruct (Prim2SF x) as [[]|[]| |[] m e]; intros H; try discriminate H;
      try reflexivity;
      rewrite Z.compare_refl, Pos.compare_cont_refl in H; discriminate H.
  - (* the square of a number is a number, and not below zero *)
    intros x. unfold rounded_pow, is_nan. change (2 =? 2)%float with true. cbv iota.
    rewrite eqb_spec, mul_spec. unfold SFeqb, SFcompare, SF64mul, SFmul.
    destruct (Prim2SF x) as [[]|[]| |s m e]; intros H; try discriminate H;
      try reflexivity.
    clear H. replace (xorb s s) with false by (destruct s; reflexivity).
    assert (H1 : forall mrs, 0 <= shr_m mrs -> 0 <= shr_m (shr_1 mrs)).
    { intros [mm r s0]. cbn [shr_m shr_1].
      destruct mm as [|[p|p|]|[p|p|]]; cbn [shr_m]; intros; lia. }
    assert (H2 : forall p mrs, 0 <= shr_m mrs -> 0 <= shr_m (iter_pos shr_1 p mrs)).
    { induction p as [p IH|p IH|]; intros mrs Hm; cbn [iter_pos]; auto. }
    assert (H3 : forall mm ee l, 0 <= mm ->
                   0 <= shr_m (fst (shr_fexp prec emax mm ee l))).
    { intros mm ee l Hm. unfold shr_fexp, shr.
      assert (Hl : shr_m (shr_record_of_loc mm l) = mm)
        by (destruct l as [|[]]; reflexivity).
      destruct (fexp prec emax (Zdigits2 mm + ee) - ee); cbn [fst];
        [rewrite Hl; exact Hm | apply H2; rewrite Hl; exact Hm | rewrite Hl; exact Hm]. }
    assert (H4 : forall mm l, 0 <= mm -> 0 <= round_nearest_even mm l).
    { intros mm l Hm. destruct l as [|[]]; cbn [round_nearest_even]; try lia.
      destruct (Z.even mm); lia. }
    unfold binary_round_aux.
    pose proof (H3 (Z.pos (m * m)) (e + e) loc_Exact ltac:(lia)) as Ha.
    destruct (shr_fexp prec emax (Z.pos (m * m)) (e + e) loc_Exact) as [mrs' e'].
    cbn [fst] in Ha.
    pose proof (H3 _ e' loc_Exact (H4 _ (loc_of_shr_record mrs') Ha)) as Hb.
    destruct (shr_fexp prec emax
                (round_nearest_even (shr_m mrs') (loc_of_shr_record mrs')) e' loc_Exact)
      as [mrs'' e''].
    cbn [fst] in Hb.
    destruct (shr_m mrs'') as [|p|p];
      [reflexivity | destruct (e'' <=? emax - prec); reflexivity | lia].
  - (* the square of a zero is +0 *)
    intros x. unfold rounded_pow, is_zero. change (2 =? 2)%float with true. cbv iota.
    rewrite eqb_spec. intros H. apply Prim2SF_inj. rewrite mul_spec.
    unfold SFeqb, SFcompare, SF64mul, SFmul in *.
    change (Prim2SF 0) with (S754_zero false) in *.
    destruct (Prim2SF x) as [[]|[]| |[] m e]; try discriminate H; reflexivity.
  - (* the square of an infinity is +Infinity *)
    intros x. unfold rounded_pow, is_infinity. change (2 =? 2)%float with true. cbv iota.
    rewrite eqb_spec, abs_spec. intros H. apply Prim2SF_inj. rewrite mul_spec.
    unfold SFeqb, SFcompare, SF64mul, SFmul, SFabs in *.
    change (Prim2SF infinity) with (S754_infinity false) in *.
    destruct (Prim2SF x) as [[]|[]| |[] m e]; try discriminate H; reflexivity.
  - (* the square of 1 is 1 *)
    vm_compute. reflexivity.
Defined.

(** A row with the given variant, outcome, order value and value of every
    segment column. *)
Definition mk (v : string) (c : bool) (value : float) (seg : string) : row :=
  {| variant := v; converted := c; order_value := value; attr := fun _ => seg |}.

(** The datasets of the examples. *)
Definition one_each : DataFrame :=
  [mk control false 0 "all"; mk treatment true 10 "all"].

Definition two_each : DataFrame :=
  [mk control false 0 "all"; mk control true 10 "all";
   mk treatment true 10 "all"; mk treatment false 0 "all"].

Definition treatment_only : DataFrame := [mk treatment true 10 "all"].

Definition no_conversions : DataFrame :=
  [mk control false 0 "all"; mk treatment false 0 "all"].

Definition thirds : DataFrame :=
  [mk control true 10 "all"; mk control false 0 "all"; mk control false 0 "all";
   mk treatment true 10 "all"; mk treatment true 10.12345 "all";
   mk treatment false 0 "all"].

Definition equal_thirds : DataFrame :=
  [mk control true 10 "all"; mk control false 0 "all"; mk control false 0 "all";
   mk treatment true 10 "all"; mk treatment false 0 "all";
   mk treatment false 0 "all"].

Definition mobile_only : DataFrame :=
  repeat (mk control true 0 "mobile") 5 ++ repeat (mk treatment true 0 "mobile") 5.

Definition two_segments : DataFrame :=
  mobile_only
  ++ repeat (mk control true 0 "desktop") 6 ++ repeat (mk treatment true 0 "desktop") 3.

(** The conversion rate of a group: conversions / sessions, as NumPy divides
    the two integers. *)
Definition rate_of (g : DataFrame) : float :=
  (of_Z (sum_converted g) / of_Z (len g))%float.

(** What a run returns (or raises) and what it prints. *)
Definition returned {A} (m : io A) : result A := fst (run m).
Definition printed {A} (m : io A) : list line := snd (run m).

(** ** The formulas as the specification writes them *)

(** Section 4.3: the chi-square statistic is the sum over the two cells of
    (observed - expected)^2 / expected, with expected counts total * ratio
    and total * (1 - ratio); the square is the [** 2] of the code, that is
    [pow(observed - expected, 2.0)]. *)
Definition chi_square_cell (L : Lib) (observed expected : float) : float :=
  (libm_pow L (observed - expected) 2 / expected)%float.

Definition chi_square_statistic (L : Lib) (control_count treatment_count : Z)
    (expected_ratio : float) : float :=
  let total := of_Z (control_count + treatment_count) in
  (chi_square_cell L (of_Z control_count) (total * expected_ratio)
   + chi_square_cell L (of_Z treatment_count) (total * (1 - expected_ratio)))%float.

(** Section 4.2: the quantity whose ceiling is the required sample size,
    ((z_alpha + z_beta) * se_coefficient / minimum_effect)^2, the square
    being the [** 2] of the code. *)
Definition plan_closed_form (L : Lib)
    (baseline_rate minimum_effect alpha power : float) : float :=
  let p1 := baseline_rate in
  let p2 := (baseline_rate + minimum_effect)%float in
  let p_pooled := ((p1 + p2) / 2)%float in
  let se_coefficient := PrimFloat.sqrt (2 * p_pooled * (1 - p_pooled))%float in
  let z_alpha := norm_ppf L (1 - alpha / 2)%float in
  let z_beta := norm_ppf L power in
  let x := ((z_alpha + z_beta) * se_coefficient / minimum_effect)%float in
  libm_pow L x 2.

(** Section 3, PowerPlanInput: the inputs the planner is specified on. *)
Definition in_unit_interval (x : float) : bool := ((0 <? x) && (x <? 1))%float.

Definition valid_plan_input (baseline_rate minimum_effect alpha power : float) : bool :=
  in_unit_interval baseline_rate
  && in_unit_interval (baseline_rate + minimum_effect)%float
  && negb (is_zero minimum_effect) && negb (is_nan minimum_effect)
  && in_unit_interval alpha && in_unit_interval power.

(** Section 4.5: the records of one segment and one variant, the gate, and
    the row of a tested segment. *)
Definition segment_group (df : DataFrame) (segment_col seg v : string) : DataFrame :=
  with_variant v (in_segment segment_col seg df).

Definition gated_in (df : DataFrame) (segment_col : string) (min_sample_size : Z)
    (seg : string) : bool :=
  (min_sample_size <=? len (segment_group df segment_col seg control))
  && (min_sample_size <=? len (segment_group df segment_col seg treatment))
  && (5 <=? sum_converted (segment_group df segment_col seg control))
  && (5 <=? sum_converted (segment_group df segment_col seg treatment)).

(** The gate as a proposition. *)
Definition passes_gate (df : DataFrame) (segment_col : string) (min_sample_size : Z)
    (seg : string) : Prop :=
  min_sample_size <= len (segment_group df segment_col seg control)
  /\ min_sample_size <= len (segment_group df segment_col seg treatment)
  /\ 5 <= sum_converted (segment_group df segment_col seg control)
  /\ 5 <= sum_converted (segment_group df segment_col seg treatment).

Definition tested_row (L : Lib) (df : DataFrame) (segment_col seg : string)
    : segment_result :=
  let n_control := len (segment_group df segment_col seg control) in
  let n_treatment := len (segment_group df segment_col seg treatment) in
  let k_control := sum_converted (segment_group df segment_col seg control) in
  let k_treatment := sum_converted (segment_group df segment_col seg treatment) in
  let rate_control := rate_of (segment_group df segment_col seg control) in
  let rate_treatment := rate_of (segment_group df segment_col seg treatment) in
  let p := (2 * (1 - norm_cdf L
              (PrimFloat.abs (z_statistic k_treatment n_treatment k_control n_control))))%float in
  {| segment := seg;
     control_sessions := PyInt n_control;
     treatment_sessions := PyInt n_treatment;
     control_rate := NpFloat rate_control;
     treatment_rate := NpFloat rate_treatment;
     absolute_lift := NpFloat (rate_treatment - rate_control);
     relative_lift :=
       if (0 <? rate_control)%float
       then NpFloat ((rate_treatment / rate_control - 1) * 100)
       else PyInt 0;
     p_value := NpFloat p;
     significant := (p <? 0.05)%float |}.

Definition tested_line (r : segment_result) : line :=
  Line "{:12} | Control: {:.1%} | Treatment: {:.1%} | Lift: {:+.1f}% | p={:.3f} | {}"
    [Str (segment r); Num (control_rate r); Num (treatment_rate r);
     Num (relative_lift r); Num (p_value r); Str (sig_label (significant r))].

(** The line printed for a segment, tested or not. *)
Definition segment_line (L : Lib) (df : DataFrame) (segment_col : string)
    (min_sample_size : Z) (seg : string) : line :=
  if gated_in df segment_col min_sample_size seg
  then tested_line (tested_row L df segment_col seg)
  else insufficient_line seg.

Definition segments_of (df : DataFrame) (segment_col : string) : list string :=
  unique (map (fun r => attr r segment_col) df).

(** ** Classes of binary64 numbers *)

Definition finite_sf (x : spec_float) : bool :=
  match x with
  | S754_zero _ | S754_finite _ _ _ => true
  | S754_infinity _ | S754_nan => false
  end.

Definition zero_sf (x : spec_float) : bool :=
  match x with
  | S754_zero _ => true
  | _ => false
  end.

Definition nan_sf (x : spec_float) : bool :=
  match x with
  | S754_nan => true
  | _ => false
  end.

Definition negative_sf (x : spec_float) : bool :=
  match x with
  | S754_finite true _ _ => true
  | _ => false
  end.

(** ** The ceiling of a real number *)
Module Ideal.

#[local] Open Scope R_scope.

(** The least integer not below [x]. *)
Definition ceil (x : R) : Z := (- Int_part (- x))%Z.

End Ideal.

(** The exact value of a finite binary64 number (0 on the others). *)
Definition real_value (x : float) : R :=
  match Prim2SF x with
  | S754_finite s m e => (IZR (cond_Zopp s (Zpos m)) * powerRZ 2 e)%R
  | _ => 0%R
  end.

(** Case analysis on the classes of two floats. *)
Ltac by_class a b :=
  let H := fresh in
  destruct (Prim2SF a) as [[]|[]| |? ? ?]; intros H; try discriminate H;
  destruct (Prim2SF b) as [[]|[]| |? ? ?]; reflexivity.

(** * Properties *)

(** ** Binary64 facts *)

Section Binary64.

#[local] Open Scope float_scope.

Lemma SFcompare_refl s m e :
  SFcompare (S754_finite s m e) (S754_finite s m e) = Some Eq.
Proof.
  unfold SFcompare.
  destruct s; rewrite Z.compare_refl, Pos.compare_cont_refl; reflexivity.
Qed.

Lemma is_nan_spec x : is_nan x = nan_sf (Prim2SF x).
Proof.
  unfold is_nan. rewrite eqb_spec. unfold SFeqb.
  destruct (Prim2SF x) as [[]|[]| |s m e]; try reflexivity.
  rewrite SFcompare_refl. reflexivity.
Qed.

Lemma is_zero_spec x : is_zero x = zero_sf (Prim2SF x).
Proof.
  unfold is_zero. rewrite eqb_spec. change (Prim2SF zero) with (S754_zero false).
  destruct (Prim2SF x) as [[]|[]| |[] m e]; reflexivity.
Qed.

Lemma is_finite_spec x : is_finite x = finite_sf (Prim2SF x).
Proof.
  unfold is_finite. rewrite is_nan_spec. unfold is_infinity.
  rewrite eqb_spec, abs_spec. change (Prim2SF infinity) with (S754_infinity false).
  destruct (Prim2SF x) as [[]|[]| |[] m e]; reflexivity.
Qed.

Lemma is_infinity_spec x :
  is_infinity x = match Prim2SF x with S754_infinity _ => true | _ => false end.
Proof.
  unfold is_infinity.
  rewrite eqb_spec, abs_spec. change (Prim2SF infinity) with (S754_infinity false).
  destruct (Prim2SF x) as [[]|[]| |[] m e]; reflexivity.
Qed.

(** Division by a zero (or a NaN) gives an infinity or a NaN. *)
Lemma div_by_zero_not_finite x e :
  is_zero e = true \/ is_nan e = true -> is_finite (x / e) = false.
Proof.
  rewrite is_zero_spec, is_nan_spec, is_finite_spec, div_spec. unfold SF64div.
  destruct (Prim2SF e) as [s|s| |s m e']; intros [H|H]; try discriminate H;
    destruct (Prim2SF x); reflexivity.
Qed.

Lemma mul_zero_zero_or_nan y z :
  is_zero z = true -> is_zero (y * z) = true \/ is_nan (y * z) = true.
Proof.
  rewrite !is_zero_spec, is_nan_spec, mul_spec. unfold SF64mul.
  destruct (Prim2SF z) as [s|s| |s m e']; intros H; try discriminate H.
  destruct (Prim2SF y); simpl; auto.
Qed.

Lemma add_not_finite_l a b : is_finite a = false -> is_finite (a + b) = false.
Proof. rewrite !is_finite_spec, add_spec. unfold SF64add. by_class a b. Qed.

Lemma add_not_finite_r a b : is_finite b = false -> is_finite (a + b) = false.
Proof. rewrite !is_finite_spec, add_spec. unfold SF64add. by_class b a. Qed.

Lemma sub_not_finite_l a b : is_finite a = false -> is_finite (a - b) = false.
Proof. rewrite !is_finite_spec, sub_spec. unfold SF64sub. by_class a b. Qed.

Lemma mul_not_finite_l a b : is_finite a = false -> is_finite (a * b) = false.
Proof. rewrite !is_finite_spec, mul_spec. unfold SF64mul. by_class a b. Qed.

(** A finite number minus itself is +0. *)
Lemma sub_diag x : is_finite x = true -> x - x = 0.
Proof.
  rewrite is_finite_spec. intros H. apply Prim2SF_inj. rewrite sub_spec.
  unfold SF64sub. change (Prim2SF 0) with (S754_zero false).
  destruct (Prim2SF x) as [s|s| |s m e']; try discriminate.
  - destruct s; reflexivity.
  - unfold SFsub. rewrite Z.sub_diag. reflexivity.
Qed.

(** +0 divided by a positive number is +0. *)
Lemma zero_div_pos y : (0 <? y) = true -> 0 / y = 0.
Proof.
  rewrite ltb_spec. intros H. apply Prim2SF_inj. rewrite div_spec.
  unfold SF64div. change (Prim2SF 0) with (S754_zero false) in *.
  destruct (Prim2SF y) as [s|s| |s m e']; try discriminate;
    destruct s; try discriminate; reflexivity.
Qed.

Lemma SFeqb_finite_eq x s m e :
  SFeqb x (S754_finite s m e) = true -> x = S754_finite s m e.
Proof.
  unfold SFeqb, SFcompare.
  destruct x as [[]|[]| |s' m' e']; try discriminate; destruct s; try discriminate.
  all: destruct s'; try discriminate.
  all: destruct (Z.compare_spec e' e) as [He|He|He]; try discriminate; subst e'.
  all: change (Pos.compare_cont Eq m' m) with (Pos.compare m' m).
  all: destruct (Pos.compare_spec m' m) as [Hm|Hm|Hm]; try discriminate;
    subst m'; reflexivity.
Qed.

(** [r == 1.0] only for the float 1.0 itself. *)
Lemma eqb_one r : (r =? 1) = true -> r = 1.
Proof.
  rewrite eqb_spec. intros H. apply Prim2SF_inj.
  assert (E : Prim2SF 1 = S754_finite false 4503599627370496 (-52))
    by (vm_compute; reflexivity).
  rewrite E in *. apply SFeqb_finite_eq in H. exact H.
Qed.

(** What 0 * r and 0 - z are, by the class of the operand. *)
Lemma zero_mul_finite r : is_finite r = true -> is_zero (0 * r) = true.
Proof.
  rewrite is_finite_spec, is_zero_spec, mul_spec. unfold SF64mul.
  change (Prim2SF 0) with (S754_zero false).
  destruct (Prim2SF r); intros H; try discriminate H; reflexivity.
Qed.

Lemma zero_mul_not_finite r : is_finite r = false -> is_nan (0 * r) = true.
Proof.
  rewrite is_finite_spec, is_nan_spec, mul_spec. unfold SF64mul.
  change (Prim2SF 0) with (S754_zero false).
  destruct (Prim2SF r); intros H; try discriminate H; reflexivity.
Qed.

Lemma zero_sub_zero z : is_zero z = true -> is_zero (0 - z) = true.
Proof.
  rewrite !is_zero_spec, sub_spec. unfold SF64sub.
  change (Prim2SF 0) with (S754_zero false).
  destruct (Prim2SF z) as [[]| | |]; intros H; try discriminate H; reflexivity.
Qed.

Lemma sub_nan_r a z : is_nan z = true -> is_nan (a - z) = true.
Proof.
  rewrite !is_nan_spec, sub_spec. unfold SF64sub.
  destruct (Prim2SF z); intros H; try discriminate H.
  destruct (Prim2SF a); reflexivity.
Qed.

Lemma nan_not_finite x : is_nan x = true -> is_finite x = false.
Proof. rewrite is_nan_spec, is_finite_spec. destruct (Prim2SF x); easy. Qed.

Lemma nan_not_zero x : is_nan x = true -> is_zero x = false.
Proof. rewrite is_nan_spec, is_zero_spec. destruct (Prim2SF x); easy. Qed.

Lemma one_sub_not_finite r : is_finite r = false -> is_finite (1 - r) = false.
Proof.
  rewrite !is_finite_spec, sub_spec. unfold SF64sub.
  assert (E : Prim2SF 1 = S754_finite false 4503599627370496 (-52))
    by (vm_compute; reflexivity).
  rewrite E.
  destruct (Prim2SF r) as [[]|[]| |]; intros H; try discriminate H; reflexivity.
Qed.

(** A square is not negative, and neither is its ceiling. *)
Lemma square_not_negative (L : Lib) x :
  negative_sf (Prim2SF (libm_pow L x 2)) = false.
Proof.
  destruct (is_nan x) eqn:E.
  - pose proof (libm_pow_nan L x E) as H. rewrite is_nan_spec in H.
    destruct (Prim2SF (libm_pow L x 2)); try discriminate H; reflexivity.
  - pose proof (libm_pow_nonneg L x E) as H.
    destruct (Prim2SF (libm_pow L x 2)) as [s|s| |[] m e]; try discriminate H;
      reflexivity.
Qed.

(** The square of what is not finite is not finite. *)
Lemma square_not_finite (L : Lib) x :
  is_finite x = false -> is_finite (libm_pow L x 2) = false.
Proof.
  unfold is_finite at 1. intros H. apply negb_false_iff, orb_true_iff in H.
  destruct H as [H|H].
  - apply nan_not_finite, libm_pow_nan, H.
  - rewrite (libm_pow_infinity L x H). reflexivity.
Qed.

(** Rounding a number that is not below zero gives a number that is not
    below zero. *)
Lemma shr_1_nonneg mrs : (0 <= shr_m mrs)%Z -> (0 <= shr_m (shr_1 mrs))%Z.
Proof.
  destruct mrs as [m r s]. cbn [shr_m shr_1].
  destruct m as [|[p|p|]|[p|p|]]; cbn [shr_m]; intros; lia.
Qed.

Lemma iter_shr_1_nonneg p mrs :
  (0 <= shr_m mrs)%Z -> (0 <= shr_m (iter_pos shr_1 p mrs))%Z.
Proof.
  revert mrs. induction p as [p IH|p IH|]; intros mrs H; cbn [iter_pos].
  - apply IH, IH, shr_1_nonneg, H.
  - apply IH, IH, H.
  - apply shr_1_nonneg, H.
Qed.

Lemma shr_fexp_nonneg m e l :
  (0 <= m)%Z -> (0 <= shr_m (fst (shr_fexp prec emax m e l)))%Z.
Proof.
  intros H. unfold shr_fexp, shr.
  assert (Hl : shr_m (shr_record_of_loc m l) = m) by (destruct l as [|[]]; reflexivity).
  destruct (fexp prec emax (Zdigits2 m + e) - e)%Z; cbn [fst]; try apply iter_shr_1_nonneg;
    rewrite Hl; exact H.
Qed.

Lemma round_nearest_even_nonneg m l :
  (0 <= m)%Z -> (0 <= round_nearest_even m l)%Z.
Proof.
  intros H. destruct l as [|[]]; cbn [round_nearest_even]; try lia.
  destruct (Z.even m); lia.
Qed.

Lemma binary_round_aux_nonneg m e l :
  (0 <= m)%Z -> nonneg_sf (binary_round_aux prec emax false m e l) = true.
Proof.
  intros H. unfold binary_round_aux.
  pose proof (shr_fexp_nonneg m e l H) as Ha.
  destruct (shr_fexp prec emax m e l) as [mrs' e']. cbn [fst] in Ha.
  pose proof (shr_fexp_nonneg _ e' loc_Exact
                (round_nearest_even_nonneg _ (loc_of_shr_record mrs') Ha)) as Hb.
  destruct (shr_fexp prec emax
              (round_nearest_even (shr_m mrs') (loc_of_shr_record mrs')) e' loc_Exact)
    as [mrs'' e'']. cbn [fst] in Hb.
  destruct (shr_m mrs'') as [|p|p];
    [reflexivity | destruct (e'' <=? emax - prec)%Z; reflexivity | lia].
Qed.

(** A number not below zero, divided by a positive finite number, is a
    number not below zero. *)
Lemma div_nonneg x y :
  nonneg_sf (Prim2SF x) = true -> is_finite y = true -> (0 <? y) = true ->
  nonneg_sf (Prim2SF (x / y)) = true.
Proof.
  rewrite is_finite_spec, ltb_spec, div_spec. unfold SF64div, SFltb, SFcompare.
  change (Prim2SF 0) with (S754_zero false).
  destruct (Prim2SF y) as [sy|sy| |sy my ey]; intros Hx Hf Hy; try discriminate.
  destruct sy; [discriminate Hy|]. clear Hf Hy.
  destruct (Prim2SF x) as [sx|sx| |sx mx ex]; try discriminate Hx;
    try (destruct sx; try discriminate Hx; reflexivity).
  destruct sx; [discriminate Hx|]. unfold SFdiv, SFdiv_core_binary. cbv zeta.
  match goal with
  | |- context [Z.div_eucl ?a ?b] =>
      assert (Ha : (0 <= a)%Z);
      [| pose proof (Z.div_pos a b Ha ltac:(lia)) as Hq; unfold Z.div in Hq;
         destruct (Z.div_eucl a b) as [q r] ]
  end.
  - match goal with
    | |- (0 <= match ?s with _ => _ end)%Z => destruct s
    end; try lia. apply Z.shiftl_nonneg. lia.
  - apply binary_round_aux_nonneg, Hq.
Qed.

(** +Infinity plus a number not below zero is +Infinity. *)
Lemma infinity_add_nonneg y :
  nonneg_sf (Prim2SF y) = true -> infinity + y = infinity.
Proof.
  intros H. apply Prim2SF_inj. rewrite add_spec. unfold SF64add.
  change (Prim2SF infinity) with (S754_infinity false).
  destruct (Prim2SF y) as [sy|sy| |sy my ey]; try discriminate H;
    try (destruct sy; try discriminate H); reflexivity.
Qed.


Lemma of_Z_0 : of_Z 0 = 0.
Proof. reflexivity. Qed.
Lemma of_Z_1 : of_Z 1 = 1.
Proof. vm_compute. reflexivity. Qed.
Lemma of_Z_2 : of_Z 2 = 2.
Proof. vm_compute. reflexivity. Qed.
Lemma of_Z_100 : of_Z 100 = 100.
Proof. vm_compute. reflexivity. Qed.

End Binary64.

(** ** Counting *)

Arguments of_Z : simpl never.
Arguments wrap64 : simpl never.

Lemma wrap64_small n : - 2 ^ 63 <= n < 2 ^ 63 -> wrap64 n = n.
Proof. intros H. unfold wrap64. rewrite Z.mod_small; lia. Qed.

Lemma len_nonneg {A} (l : list A) : 0 <= len l.
Proof. unfold len. lia. Qed.

Lemma len_nil_iff {A} (l : list A) : len l = 0 <-> l = [].
Proof.
unfold len. destruct l; simpl; split; intros H; try reflexivity; try discriminate; lia.
Qed.

Lemma len_filter_le {A} (f : A -> bool) (l : list A) : len (filter f l) <= len l.
Proof.
unfold len. apply Nat2Z.inj_le. induction l as [|x l IH]; simpl; [lia|].
destruct (f x); simpl; lia.
Qed.

Lemma sum_converted_le (g : DataFrame) : sum_converted g <= len g.
Proof. apply len_filter_le. Qed.

Lemma value_counts_get_cases df v :
(with_variant v df = [] /\ value_counts_get df v = PyInt 0)
\/ (0 < len (with_variant v df)
    /\ value_counts_get df v = NpInt (len (with_variant v df))).
Proof.
unfold value_counts_get. destruct (with_variant v df) as [|r g] eqn:E.
- left. split; reflexivity.
- right. split; [unfold len; simpl; lia | reflexivity].
Qed.

Lemma value_counts_get_len df v :
int_val (value_counts_get df v) = len (with_variant v df)
/\ to_float (value_counts_get df v) = of_Z (len (with_variant v df))
/\ is_int (value_counts_get df v) = true.
Proof.
destruct (value_counts_get_cases df v) as [[E ->]|[_ ->]]; [rewrite E|]; auto.
Qed.

(** ** [check_sample_ratio_mismatch] *)

Section SampleRatio.

Variable L : Lib.
Variables (df : DataFrame) (expected_ratio alpha : float).

(** With a record of either variant the total is an [int64], every
    division is NumPy's, and the check runs to its end. *)
Lemma check_srm_run :
  let control_count := value_counts_get df control in
  let treatment_count := value_counts_get df treatment in
  let total := add control_count treatment_count in
  is_numpy total = true ->
  let expected_control := (to_float total * expected_ratio)%float in
  let expected_treatment := (to_float total * (1 - expected_ratio))%float in
  let statistic :=
    (chi_square_cell L (to_float control_count) expected_control
     + chi_square_cell L (to_float treatment_count) expected_treatment)%float in
  let p := (1 - chi2_cdf L statistic)%float in
  run (check_sample_ratio_mismatch L df expected_ratio alpha) =
    (Ok (alpha <? p)%float,
     [ Line "   Sample Ratio Mismatch Check:" [];
       Line "   Control: {:,} ({:.1%})"
         [Num control_count;
          Num (NpFloat (to_float control_count / to_float total))];
       Line "   Treatment: {:,} ({:.1%})"
         [Num treatment_count;
          Num (NpFloat (to_float treatment_count / to_float total))];
       Line "   Expected split: {:.1%} / {:.1%}"
         [Num (PyFloat expected_ratio); Num (PyFloat (1 - expected_ratio))];
       Line "   Chi-square statistic: {:.4f}" [Num (NpFloat statistic)];
       Line "   P-value: {:.6f}" [Num (NpFloat p)];
       Line "   Result: {}"
         [Str (if (alpha <? p)%float then "PASS" else "FAIL - INVESTIGATE")] ]).
Proof.
  intros control_count treatment_count total Hnp.
  unfold check_sample_ratio_mismatch.
  fold control_count treatment_count. fold total.
  unfold chi_square_cell.
  destruct total as [n|x|n|x] eqn:Etot; try discriminate Hnp.
  - (* the total is an int64 *)
    destruct control_count as [c|c|c|c], treatment_count as [t|t|t|t];
      try discriminate Etot; cbn; rewrite ?of_Z_1; reflexivity.
  - destruct control_count as [c|c|c|c], treatment_count as [t|t|t|t];
      try discriminate Etot; cbn; rewrite ?of_Z_1; reflexivity.
Qed.

End SampleRatio.

Section SampleRatioClaims.

#[local] Open Scope float_scope.

Lemma total_count df :
  let c := len (with_variant control df) in
  let t := len (with_variant treatment df) in
  (c + t <> 0)%Z -> (c + t < 2 ^ 63)%Z ->
  add (value_counts_get df control) (value_counts_get df treatment) = NpInt (c + t).
Proof.
  cbv zeta. intros Hne Hlt.
  pose proof (len_nonneg (with_variant control df)) as Hc.
  pose proof (len_nonneg (with_variant treatment df)) as Ht.
  destruct (value_counts_get_cases df control) as [[Ec Vc]|[_ Vc]];
    destruct (value_counts_get_cases df treatment) as [[Et Vt]|[_ Vt]];
    rewrite Vc, Vt; unfold add, arith.
  - exfalso. apply Hne. rewrite Ec, Et. reflexivity.
  - rewrite Ec. change (len (@nil row)) with 0%Z.
    rewrite wrap64_small by lia. reflexivity.
  - rewrite Et. change (len (@nil row)) with 0%Z.
    rewrite wrap64_small by lia. reflexivity.
  - rewrite wrap64_small by lia. reflexivity.
Qed.

Lemma total_is_numpy df :
  with_variant control df <> [] \/ with_variant treatment df <> [] ->
  is_numpy (add (value_counts_get df control) (value_counts_get df treatment)) = true.
Proof.
  intros H.
  destruct (value_counts_get_cases df control) as [[Ec ->]|[_ ->]];
    destruct (value_counts_get_cases df treatment) as [[Et ->]|[_ ->]];
    try reflexivity.
  destruct H as [H|H]; contradiction.
Qed.

(** C3 (amended).  On a dataset with a nonzero total (within [int64]) and an
    expected ratio strictly between 0 and 1, [check_sample_ratio_mismatch]
    runs to its end: it prints the control count, the treatment count, the
    chi-square statistic (the sum over the two cells of (observed -
    expected) ** 2 / expected, computed in binary64 with the C library's
    [pow]) and the p-value (1 - chi2.cdf(statistic, df=1)), and the value it
    returns is [passed = (p_value > alpha)] alone. *)
Theorem check_srm_result (L : Lib) (df : DataFrame) (expected_ratio alpha : float) :
  let control_count := len (with_variant control df) in
  let treatment_count := len (with_variant treatment df) in
  let total := (control_count + treatment_count)%Z in
  let statistic := chi_square_statistic L control_count treatment_count expected_ratio in
  let p_value := 1 - chi2_cdf L statistic in
  let passed := alpha <? p_value in
  total <> 0%Z -> (total < 2 ^ 63)%Z ->
  in_unit_interval expected_ratio = true ->
  int_val (value_counts_get df control) = control_count
  /\ int_val (value_counts_get df treatment) = treatment_count
  /\ returned (check_sample_ratio_mismatch L df expected_ratio alpha) = Ok passed
  /\ printed (check_sample_ratio_mismatch L df expected_ratio alpha) =
     [ Line "   Sample Ratio Mismatch Check:" [];
       Line "   Control: {:,} ({:.1%})"
         [Num (value_counts_get df control);
          Num (NpFloat (of_Z control_count / of_Z total))];
       Line "   Treatment: {:,} ({:.1%})"
         [Num (value_counts_get df treatment);
          Num (NpFloat (of_Z treatment_count / of_Z total))];
       Line "   Expected split: {:.1%} / {:.1%}"
         [Num (PyFloat expected_ratio); Num (PyFloat (1 - expected_ratio))];
       Line "   Chi-square statistic: {:.4f}" [Num (NpFloat statistic)];
       Line "   P-value: {:.6f}" [Num (NpFloat p_value)];
       Line "   Result: {}" [Str (if passed then "PASS" else "FAIL - INVESTIGATE")] ].
Proof.
  intros c t total statistic p_value passed Hne Hlt _.
  destruct (value_counts_get_len df control) as (Hci & Hcf & _).
  destruct (value_counts_get_len df treatment) as (Hti & Htf & _).
  pose proof (total_count df Hne Hlt) as Htot.
  assert (Hnp : is_numpy (add (value_counts_get df control)
                             (value_counts_get df treatment)) = true)
    by (rewrite Htot; reflexivity).
  pose proof (check_srm_run L df expected_ratio alpha Hnp) as Hrun.
  cbv zeta in Hrun. rewrite Htot, Hcf, Htf in Hrun.
  unfold returned, printed. rewrite Hrun.
  repeat split; assumption.
Qed.

Lemma check_srm_result_witness :
  in_unit_interval 0.5 = true
  /\ returned (check_sample_ratio_mismatch Samples
                 [mk control true 0 "a"; mk treatment false 0 "a"] 0.5 0.001)
     = Ok true.
Proof.
  split; [reflexivity|].
  destruct (check_srm_result Samples
              [mk control true 0 "a"; mk treatment false 0 "a"] 0.5 0.001)
    as (_ & _ & H & _).
  - vm_compute. discriminate.
  - reflexivity.
  - reflexivity.
  - rewrite H. vm_compute. reflexivity.
Defined.

(** C3 fails as stated: what the function returns is the boolean alone.  A
    dataset of one control and one treatment record and a dataset of two
    and two have different counts and return the same value, for every
    library and every alpha: the counts, the statistic and the p-value are
    no part of the returned value. *)
Lemma check_srm_returns_passed_only :
  len (with_variant control one_each) = 1%Z
  /\ len (with_variant control two_each) = 2%Z
  /\ forall (L : Lib) (alpha : float),
       returned (check_sample_ratio_mismatch L one_each 0.5 alpha)
       = Ok (alpha <? 1 - chi2_cdf L 0)
       /\ returned (check_sample_ratio_mismatch L two_each 0.5 alpha)
          = Ok (alpha <? 1 - chi2_cdf L 0).
Proof.
  split; [reflexivity | split; [reflexivity |]].
  intros L alpha. split.
  - assert (Hnp : is_numpy (add (value_counts_get one_each control)
                               (value_counts_get one_each treatment)) = true)
      by reflexivity.
    pose proof (check_srm_run L one_each 0.5 alpha Hnp) as Hrun.
    cbv zeta in Hrun. unfold chi_square_cell in Hrun.
    change (to_float (value_counts_get one_each control)
            - to_float (add (value_counts_get one_each control)
                          (value_counts_get one_each treatment)) * 0.5)
      with 0 in Hrun.
    change (to_float (value_counts_get one_each treatment)
            - to_float (add (value_counts_get one_each control)
                          (value_counts_get one_each treatment)) * (1 - 0.5))
      with 0 in Hrun.
    rewrite (libm_pow_zero L 0 eq_refl) in Hrun.
    unfold returned. rewrite Hrun. reflexivity.
  - assert (Hnp : is_numpy (add (value_counts_get two_each control)
                               (value_counts_get two_each treatment)) = true)
      by reflexivity.
    pose proof (check_srm_run L two_each 0.5 alpha Hnp) as Hrun.
    cbv zeta in Hrun. unfold chi_square_cell in Hrun.
    change (to_float (value_counts_get two_each control)
            - to_float (add (value_counts_get two_each control)
                          (value_counts_get two_each treatment)) * 0.5)
      with 0 in Hrun.
    change (to_float (value_counts_get two_each treatment)
            - to_float (add (value_counts_get two_each control)
                          (value_counts_get two_each treatment)) * (1 - 0.5))
      with 0 in Hrun.
    rewrite (libm_pow_zero L 0 eq_refl) in Hrun.
    unfold returned. rewrite Hrun. reflexivity.
Qed.

End SampleRatioClaims.

Section DegenerateRatio.

#[local] Open Scope float_scope.

(** Without a record of either variant the total is the Python integer 0,
    the cells are Python floats, and a division raises. *)
Lemma check_srm_empty_raises (L : Lib) (df : DataFrame) (expected_ratio alpha : float) :
  with_variant control df = [] -> with_variant treatment df = [] ->
  run (check_sample_ratio_mismatch L df expected_ratio alpha)
  = (Raise ZeroDivisionError,
     if is_finite expected_ratio then []
     else [Line "   Sample Ratio Mismatch Check:" []]).
Proof.
  intros Ec Et.
  unfold check_sample_ratio_mismatch, value_counts_get.
  rewrite Ec, Et.
  unfold run, bind, lift.
  cbn [add sub mul arith is_numpy to_float orb pow2].
  change (0 + 0)%Z with 0%Z. rewrite !of_Z_0, of_Z_1.
  destruct (is_finite expected_ratio) eqn:Hfin.
  - (* 0 * ratio is a zero: the first division raises *)
    pose proof (zero_mul_finite _ Hfin) as Z1.
    pose proof (zero_sub_zero _ Z1) as Z2.
    rewrite (libm_pow_zero L _ Z2). change (is_infinity 0) with false.
    rewrite andb_false_r.
    unfold truediv at 1. cbn [is_numpy to_float orb]. rewrite Z1.
    reflexivity.
  - (* 0 * ratio is a NaN: the statistic is a NaN, and the share 0/0 raises *)
    pose proof (zero_mul_not_finite _ Hfin) as N1.
    pose proof (sub_nan_r 0 _ N1) as N2.
    rewrite (nan_not_finite _ N2), andb_false_l.
    unfold truediv at 1. cbn [is_numpy to_float orb]. rewrite (nan_not_zero _ N1).
    pose proof (zero_mul_not_finite _ (one_sub_not_finite _ Hfin)) as M1.
    pose proof (sub_nan_r 0 _ M1) as M2.
    rewrite (nan_not_finite _ M2), andb_false_l.
    unfold truediv at 1. cbn [is_numpy to_float orb]. rewrite (nan_not_zero _ M1).
    reflexivity.
Qed.

(** C1 (amended).  The code has no guard and no error type of its own.
    When the dataset has no control and no treatment record (total = 0) the
    counts are the Python integer 0, the cells are Python floats, and
    [check_sample_ratio_mismatch] stops with Python's ZeroDivisionError,
    raised by a division itself: by the first cell, before anything is
    printed, when the expected ratio is finite.  When a record of either
    variant exists the arithmetic is NumPy's and nothing is raised: for an
    expected ratio of 0 or 1 the statistic is an infinity or a NaN, it is
    reported as such, and the check returns [p_value > alpha] computed from
    it. *)
Theorem check_srm_division_by_zero (L : Lib) (df : DataFrame)
    (expected_ratio alpha : float) :
  (with_variant control df = [] -> with_variant treatment df = [] ->
   run (check_sample_ratio_mismatch L df expected_ratio alpha)
   = (Raise ZeroDivisionError,
      if is_finite expected_ratio then []
      else [Line "   Sample Ratio Mismatch Check:" []]))
  /\ (with_variant control df <> [] \/ with_variant treatment df <> [] ->
      ((expected_ratio =? 0) || (expected_ratio =? 1)) = true ->
      exists statistic,
        is_finite statistic = false
        /\ returned (check_sample_ratio_mismatch L df expected_ratio alpha)
           = Ok (alpha <? 1 - chi2_cdf L statistic)
        /\ In (Line "   Chi-square statistic: {:.4f}" [Num (NpFloat statistic)])
              (printed (check_sample_ratio_mismatch L df expected_ratio alpha))).
Proof.
  split.
  - apply check_srm_empty_raises.
  - intros Hpresent Hratio.
    pose proof (check_srm_run L df expected_ratio alpha (total_is_numpy df Hpresent))
      as Hrun.
    cbv zeta in Hrun.
    match type of Hrun with
    | context [Line "   Chi-square statistic: {:.4f}" [Num (NpFloat ?s)]] =>
        exists s
    end.
    unfold returned, printed. rewrite Hrun. cbn [fst snd].
    split; [| split; [reflexivity | simpl; tauto]].
    unfold chi_square_cell.
    apply orb_true_iff in Hratio. destruct Hratio as [H0|H1].
    + apply add_not_finite_l, div_by_zero_not_finite.
      apply mul_zero_zero_or_nan. exact H0.
    + apply eqb_one in H1. subst expected_ratio.
      apply add_not_finite_r, div_by_zero_not_finite.
      apply mul_zero_zero_or_nan. reflexivity.
Qed.

Lemma check_srm_division_by_zero_witness :
  run (check_sample_ratio_mismatch Samples [] 0.5 0.001) = (Raise ZeroDivisionError, [])
  /\ exists statistic,
       is_finite statistic = false
       /\ returned (check_sample_ratio_mismatch Samples one_each 1 0.001)
          = Ok (0.001 <? 1 - chi2_cdf Samples statistic)
       /\ In (Line "   Chi-square statistic: {:.4f}" [Num (NpFloat statistic)])
             (printed (check_sample_ratio_mismatch Samples one_each 1 0.001)).
Proof.
  split.
  - apply (proj1 (check_srm_division_by_zero Samples [] 0.5 0.001)); reflexivity.
  - apply (proj2 (check_srm_division_by_zero Samples one_each 1 0.001)).
    + left. discriminate.
    + reflexivity.
Defined.

(** C1 fails as stated: with one control and one treatment record and an
    expected ratio of 0 the check raises nothing; the statistic is
    +Infinity and the check returns [alpha < 1 - chi2.cdf(inf)]. *)
Lemma check_srm_ratio_zero_returns :
  value_counts_get one_each control = NpInt 1
  /\ value_counts_get one_each treatment = NpInt 1
  /\ forall (L : Lib) (alpha : float),
       returned (check_sample_ratio_mismatch L one_each 0 alpha)
       = Ok (alpha <? 1 - chi2_cdf L infinity)
       /\ In (Line "   Chi-square statistic: {:.4f}" [Num (NpFloat infinity)])
             (printed (check_sample_ratio_mismatch L one_each 0 alpha)).
Proof.
  split; [reflexivity | split; [reflexivity |]].
  intros L alpha.
  assert (Hnp : is_numpy (add (value_counts_get one_each control)
                             (value_counts_get one_each treatment)) = true)
    by reflexivity.
  pose proof (check_srm_run L one_each 0 alpha Hnp) as Hrun.
  cbv zeta in Hrun.
  match type of Hrun with
  | context [Line "   Chi-square statistic: {:.4f}" [Num (NpFloat ?s)]] =>
      assert (Hs : s = infinity)
  end.
  { unfold chi_square_cell.
    change (to_float (value_counts_get one_each control)
            - to_float (add (value_counts_get one_each control)
                          (value_counts_get one_each treatment)) * 0)
      with 1.
    change (to_float (value_counts_get one_each treatment)
            - to_float (add (value_counts_get one_each control)
                          (value_counts_get one_each treatment)) * (1 - 0))
      with (-1).
    change (to_float (add (value_counts_get one_each control)
                        (value_counts_get one_each treatment)) * 0)
      with 0.
    change (to_float (add (value_counts_get one_each control)
                        (value_counts_get one_each treatment)) * (1 - 0))
      with 2.
    rewrite (libm_pow_one L). change (1 / 0) with infinity.
    apply infinity_add_nonneg, div_nonneg; [|reflexivity|reflexivity].
    apply libm_pow_nonneg. reflexivity. }
  rewrite Hs in Hrun. unfold returned, printed. rewrite Hrun. cbn [fst snd].
  split; [reflexivity | simpl; tauto].
Qed.

End DegenerateRatio.

(** ** [calculate_sample_size] *)

Section Planner.

#[local] Open Scope float_scope.

(** The arithmetic of the planner: it raises nothing and prints nothing, and
    hands the closed form, a [float64], to [int(np.ceil(...))]. *)
Lemma planner_run (L : Lib) (baseline_rate minimum_effect alpha power : float) :
  run (calculate_sample_size L baseline_rate minimum_effect alpha power)
  = (int_ceil (NpFloat (plan_closed_form L baseline_rate minimum_effect alpha power)),
     []).
Proof.
  unfold calculate_sample_size, plan_closed_form, run, bind, lift, truediv.
  cbn [add sub mul arith is_numpy to_float orb pow2 np_sqrt].
  rewrite of_Z_2, of_Z_1. change (is_zero 2) with false.
  cbn [add sub mul arith is_numpy to_float orb pow2 np_sqrt].
  rewrite ?of_Z_2, ?of_Z_1.
  reflexivity.
Qed.

(** C6 (amended).  [calculate_sample_size] computes the closed form
    ((z_alpha + z_beta) * se_coefficient / minimum_effect) ** 2 in binary64
    arithmetic (the square is the C library's [pow]), with p_pooled = (p1 +
    p2) / 2, and returns exactly its ceiling whenever that number is finite.  When it is not finite the
    conversion to an integer raises: OverflowError on an infinity (a valid
    but very small minimum effect is enough), ValueError on a NaN.  Nothing
    is printed. *)
Theorem calculate_sample_size_closed_form (L : Lib)
    (baseline_rate minimum_effect alpha power : float) :
  let n := plan_closed_form L baseline_rate minimum_effect alpha power in
  (is_finite n = true ->
   run (calculate_sample_size L baseline_rate minimum_effect alpha power)
   = (Ok (Zceil n), []))
  /\ (is_infinity n = true ->
      run (calculate_sample_size L baseline_rate minimum_effect alpha power)
      = (Raise OverflowError, []))
  /\ (is_nan n = true ->
      run (calculate_sample_size L baseline_rate minimum_effect alpha power)
      = (Raise ValueError, [])).
Proof.
  intros n. rewrite planner_run. fold n. unfold int_ceil. cbn [to_float].
  unfold is_finite. repeat split.
  - intros H. apply negb_true_iff, orb_false_iff in H. destruct H as [Hn Hi].
    rewrite Hn, Hi. reflexivity.
  - intros Hi. destruct (is_nan n) eqn:Hn; [|rewrite Hi; reflexivity].
    rewrite is_nan_spec in Hn. rewrite is_infinity_spec in Hi.
    destruct (Prim2SF n); discriminate.
  - intros Hn. rewrite Hn. reflexivity.
Qed.

Lemma calculate_sample_size_closed_form_witness :
  is_finite (plan_closed_form Samples 0.1 0.02 0.05 0.8) = true
  /\ run (calculate_sample_size Samples 0.1 0.02 0.05 0.8) = (Ok 3843%Z, []).
Proof.
  split; [reflexivity|].
  rewrite (proj1 (calculate_sample_size_closed_form Samples 0.1 0.02 0.05 0.8))
    by reflexivity.
  vm_compute. reflexivity.
Defined.

(** C6 fails as stated: a baseline of 0.5 with a minimum effect of 1e-200
    is a valid input, the closed form overflows to +Infinity, and the
    function raises OverflowError instead of returning a ceiling. *)
Lemma calculate_sample_size_overflow :
  valid_plan_input 0.5 1e-200 0.05 0.8 = true
  /\ plan_closed_form Samples 0.5 1e-200 0.05 0.8 = infinity
  /\ run (calculate_sample_size Samples 0.5 1e-200 0.05 0.8)
     = (Raise OverflowError, []).
Proof. repeat split; vm_compute; reflexivity. Qed.


End Planner.

(** ** The ceiling over the reals *)

Module IdealFacts.

Import Ideal.
#[local] Open Scope R_scope.

Lemma ceil_bounds x : x <= IZR (ceil x) < x + 1.
Proof.
  unfold ceil. destruct (base_Int_part (- x)) as [H1 H2].
  rewrite opp_IZR. lra.
Qed.

Lemma ceil_mono x y : x <= y -> (ceil x <= ceil y)%Z.
Proof.
  intros H. pose proof (ceil_bounds x) as Hx. pose proof (ceil_bounds y) as Hy.
  assert (IZR (ceil x) < IZR (ceil y) + 1) as Hlt by lra.
  rewrite <- plus_IZR in Hlt. apply lt_IZR in Hlt. lia.
Qed.

Lemma ceil_0 : ceil 0 = 0%Z.
Proof.
  pose proof (ceil_bounds 0) as [H1 H2].
  assert (IZR (-1) < IZR (ceil 0)) as Ha by (simpl; lra).
  assert (IZR (ceil 0) < IZR 1) as Hb by (simpl; lra).
  apply lt_IZR in Ha, Hb. lia.
Qed.

End IdealFacts.

(** ** The sign of the sample size *)

Section PlannerSign.

#[local] Open Scope float_scope.





End PlannerSign.

(** ** [analyze_conversion_rate] *)

Arguments two_proportion_z_test : simpl never.

Section Groups.

Lemma In_insert_key k ks x : In x (insert_key k ks) <-> x = k \/ In x ks.
Proof.
  induction ks as [|k' ks IH]; simpl.
  - intuition.
  - destruct (String.compare k k') eqn:E; simpl.
    + apply String.compare_eq_iff in E. subst k'. intuition.
    + intuition.
    + rewrite IH. intuition.
Qed.

Lemma In_group_keys df v : In v (group_keys df) <-> In v (map variant df).
Proof.
  unfold group_keys. induction (map variant df) as [|k ks IH]; simpl.
  - tauto.
  - rewrite In_insert_key, IH. intuition.
Qed.

Lemma with_variant_nonempty df v : with_variant v df <> [] <-> In v (map variant df).
Proof.
  unfold with_variant. induction df as [|r df IH]; simpl.
  - intuition.
  - destruct (String.eqb_spec (variant r) v) as [E|E].
    + split; [auto | discriminate].
    + rewrite IH. intuition.
Qed.

Lemma find_key {A} (f : string -> A) keys v :
  In v keys ->
  find (fun kr => String.eqb (fst kr) v) (map (fun k => (k, f k)) keys)
  = Some (v, f v).
Proof.
  induction keys as [|k keys IH]; simpl; [contradiction|].
  intros [E|I]; destruct (String.eqb_spec k v) as [E'|E'].
  - rewrite E. reflexivity.
  - contradiction.
  - rewrite E'. reflexivity.
  - apply IH, I.
Qed.

Lemma find_no_key {A} (f : string -> A) keys v :
  ~ In v keys ->
  find (fun kr => String.eqb (fst kr) v) (map (fun k => (k, f k)) keys) = None.
Proof.
  induction keys as [|k keys IH]; simpl; [reflexivity|].
  intros N. destruct (String.eqb_spec k v) as [E'|E'].
  - exfalso. apply N. left. exact E'.
  - apply IH. intros I. apply N. right. exact I.
Qed.

Variable L : Lib.

Lemma loc_present df v column :
  with_variant v df <> [] ->
  loc (conversion_summary_of L df) v column
  = ret (column (summarize L (with_variant v df))).
Proof.
  intros H. unfold loc, conversion_summary_of.
  rewrite find_key by (apply In_group_keys, with_variant_nonempty, H).
  reflexivity.
Qed.

Lemma loc_missing df v column :
  with_variant v df = [] ->
  loc (conversion_summary_of L df) v column = lift (Raise (KeyError v)).
Proof.
  intros H. unfold loc, conversion_summary_of.
  rewrite find_no_key; [reflexivity|].
  intros I. apply In_group_keys, with_variant_nonempty in I. contradiction.
Qed.

Lemma two_proportion_z_test_ok sa ta sb tb :
  ta <> 0 -> tb <> 0 ->
  two_proportion_z_test L sa ta sb tb
  = Ok (NpFloat (z_statistic sa ta sb tb),
        NpFloat (2 * (1 - norm_cdf L (PrimFloat.abs (z_statistic sa ta sb tb))))%float).
Proof.
  intros Ha Hb. unfold two_proportion_z_test.
  apply Z.eqb_neq in Ha, Hb. rewrite Ha, Hb. reflexivity.
Qed.

Lemma len_nonzero {A} (l : list A) : l <> [] -> len l <> 0.
Proof. intros H E. apply len_nil_iff in E. contradiction. Qed.

(** With records of both variants the analysis runs to its end. *)
Lemma analyze_run df :
  with_variant control df <> [] -> with_variant treatment df <> [] ->
  let c := with_variant control df in
  let t := with_variant treatment df in
  let z := z_statistic (sum_converted t) (len t) (sum_converted c) (len c) in
  let p := (2 * (1 - norm_cdf L (PrimFloat.abs z)))%float in
  exists out,
    run (analyze_conversion_rate L df)
    = (Ok (conversion_summary_of L df,
           NpFloat p,
           NpFloat (rate_of t - rate_of c),
           NpFloat ((rate_of t / rate_of c - 1) * 100)),
       out)
    /\ In (Line "   Control conversion rate:    {:.3%}" [Num (NpFloat (rate_of c))]) out
    /\ In (Line "   Z-statistic:                {:.4f}" [Num (NpFloat z)]) out.
Proof.
  intros Hc Ht c t z p.
  unfold analyze_conversion_rate.
  rewrite !(loc_present df control) by assumption.
  rewrite !(loc_present df treatment) by assumption.
  fold c t. unfold run, bind, print, ret, div, lift.
  cbn [summarize sessions conversions revenue_per_user int_val truediv is_numpy orb
       to_float fst snd].
  rewrite (two_proportion_z_test_ok _ _ _ _ (len_nonzero _ Ht) (len_nonzero _ Hc)).
  fold z p. cbn [fst snd add sub mul arith is_numpy to_float orb].
  rewrite of_Z_1, of_Z_100. fold (rate_of c) (rate_of t).
  eexists. split; [reflexivity|].
  split; cbn [app]; repeat (first [left; reflexivity | right]).
Qed.

End Groups.

Section PrimaryMetric.

#[local] Open Scope float_scope.

(** C5 (amended).  The code has no error type of its own.  On a dataset
    without control records, or without treatment records,
    [analyze_conversion_rate] fails at the lookup of the missing variant in
    the summary, right after the header: it raises the KeyError of the label
    [control] whenever the control records are missing (the treatment
    records missing as well or not), and the KeyError of the label
    [treatment] when only the treatment records are missing.  Neither
    another exception nor a value is produced. *)
Theorem analyze_missing_variant (L : Lib) (df : DataFrame) :
  (with_variant control df = [] ->
   run (analyze_conversion_rate L df) = (Raise (KeyError control), analysis_header))
  /\ (with_variant control df <> [] -> with_variant treatment df = [] ->
      run (analyze_conversion_rate L df)
      = (Raise (KeyError treatment), analysis_header)).
Proof.
  split.
  - intros Ec. unfold analyze_conversion_rate.
    rewrite !(loc_missing L df control) by exact Ec. reflexivity.
  - intros Hc Et. unfold analyze_conversion_rate.
    rewrite !(loc_present L df control) by exact Hc.
    rewrite !(loc_missing L df treatment) by exact Et. reflexivity.
Qed.

Lemma analyze_missing_variant_witness :
  with_variant control [] = []
  /\ run (analyze_conversion_rate Samples []) = (Raise (KeyError control), analysis_header)
  /\ with_variant control [mk control true 0 "all"] <> []
  /\ with_variant treatment [mk control true 0 "all"] = []
  /\ run (analyze_conversion_rate Samples [mk control true 0 "all"])
     = (Raise (KeyError treatment), analysis_header).
Proof.
  assert (Hc : with_variant control [mk control true 0 "all"] <> []) by discriminate.
  split; [reflexivity | split; [|split; [exact Hc | split; [reflexivity|]]]].
  - apply (proj1 (analyze_missing_variant Samples [])). reflexivity.
  - apply (proj2 (analyze_missing_variant Samples [mk control true 0 "all"]) Hc).
    reflexivity.
Defined.

(** C5 fails as stated: on a dataset with treatment records only, the
    failure is the KeyError of the label [control], raised by the lookup,
    and not a DomainError. *)
Lemma analyze_missing_control_key_error :
  with_variant control treatment_only = []
  /\ KeyError control <> DomainError
  /\ forall L : Lib,
       run (analyze_conversion_rate L treatment_only)
       = (Raise (KeyError control), analysis_header).
Proof.
  split; [reflexivity | split; [discriminate |]].
  intros L. unfold analyze_conversion_rate.
  rewrite !(loc_missing L treatment_only control) by reflexivity.
  reflexivity.
Qed.

(** C4 (amended).  The code has no guard on the control rate.  With
    records of both variants and a control conversion rate of exactly 0,
    [analyze_conversion_rate] raises nothing: the division is NumPy's, the
    relative lift (treatment_rate / control_rate - 1) * 100 is an
    infinity or a NaN, and it is returned as the fourth component. *)
Theorem analyze_zero_control_rate (L : Lib) (df : DataFrame) :
  with_variant control df <> [] -> with_variant treatment df <> [] ->
  is_zero (rate_of (with_variant control df)) = true ->
  exists summary p relative_lift,
    returned (analyze_conversion_rate L df)
    = Ok (summary, p,
          NpFloat (rate_of (with_variant treatment df)
                   - rate_of (with_variant control df)),
          NpFloat relative_lift)
    /\ relative_lift
       = (rate_of (with_variant treatment df) / rate_of (with_variant control df) - 1)
         * 100
    /\ is_finite relative_lift = false.
Proof.
  intros Hc Ht Hzero.
  destruct (analyze_run L df Hc Ht) as (out & Hrun & _).
  unfold returned. rewrite Hrun. cbn [fst].
  do 3 eexists. split; [reflexivity | split; [reflexivity|]].
  apply mul_not_finite_l, sub_not_finite_l, div_by_zero_not_finite.
  left. exact Hzero.
Qed.

Lemma analyze_zero_control_rate_witness :
  is_zero (rate_of (with_variant control one_each)) = true
  /\ exists summary p relative_lift,
       returned (analyze_conversion_rate Samples one_each)
       = Ok (summary, p,
             NpFloat (rate_of (with_variant treatment one_each)
                      - rate_of (with_variant control one_each)),
             NpFloat relative_lift)
       /\ relative_lift
          = (rate_of (with_variant treatment one_each)
             / rate_of (with_variant control one_each) - 1) * 100
       /\ is_finite relative_lift = false.
Proof.
  split; [reflexivity|].
  apply (analyze_zero_control_rate Samples one_each).
  - discriminate.
  - discriminate.
  - reflexivity.
Defined.

(** C4 fails as stated: with one control record that did not convert and
    one treatment record that did, the control rate is 0 and the
    analysis returns a relative lift of +Infinity instead of failing. *)
Lemma analyze_infinite_relative_lift :
  with_variant control one_each <> []
  /\ with_variant treatment one_each <> []
  /\ rate_of (with_variant control one_each) = 0
  /\ forall L : Lib, exists summary p,
       returned (analyze_conversion_rate L one_each)
       = Ok (summary, p, NpFloat 1, NpFloat infinity).
Proof.
  assert (Hc : with_variant control one_each <> []) by discriminate.
  assert (Ht : with_variant treatment one_each <> []) by discriminate.
  split; [exact Hc | split; [exact Ht | split; [reflexivity|]]].
  intros L. destruct (analyze_run L one_each Hc Ht) as (out & Hrun & _).
  unfold returned. rewrite Hrun. cbn [fst].
  do 2 eexists. reflexivity.
Qed.

End PrimaryMetric.

Section EqualRates.

#[local] Open Scope float_scope.

(** C9 (amended).  With records of both variants whose conversion rates are
    the same finite number, and a positive pooled standard error (the pooled
    proportion is neither 0 nor 1), [analyze_conversion_rate] returns an
    absolute lift of exactly 0, reports a z statistic of exactly 0 and, the
    normal distribution function being 0.5 at 0, returns a p-value of exactly
    1.0.  The z-test is the specification's. *)
Theorem analyze_equal_rates (L : Lib) (df : DataFrame) :
  with_variant control df <> [] -> with_variant treatment df <> [] ->
  let c := with_variant control df in
  let t := with_variant treatment df in
  rate_of t = rate_of c ->
  is_finite (rate_of c) = true ->
  (0 <? pooled_se (sum_converted t) (len t) (sum_converted c) (len c)) = true ->
  norm_cdf L 0 = 0.5 ->
  exists summary relative_lift,
    returned (analyze_conversion_rate L df)
    = Ok (summary, NpFloat 1, NpFloat 0, relative_lift)
    /\ In (Line "   Z-statistic:                {:.4f}" [Num (NpFloat 0)])
          (printed (analyze_conversion_rate L df)).
Proof.
  intros Hc Ht c t Heq Hfin Hse Hphi.
  destruct (analyze_run L df Hc Ht) as (out & Hrun & _ & Hz).
  fold c t in Hrun, Hz.
  assert (Ez : z_statistic (sum_converted t) (len t) (sum_converted c) (len c) = 0).
  { unfold z_statistic. fold (rate_of t) (rate_of c).
    rewrite Heq, (sub_diag _ Hfin). apply zero_div_pos, Hse. }
  rewrite Ez in Hrun, Hz.
  change (PrimFloat.abs 0) with 0 in Hrun. rewrite Hphi in Hrun.
  change (2 * (1 - 0.5)) with 1 in Hrun.
  rewrite Heq, (sub_diag _ Hfin) in Hrun.
  unfold returned, printed. rewrite Hrun. cbn [fst snd].
  do 2 eexists. split; [reflexivity | exact Hz].
Qed.

Lemma analyze_equal_rates_witness :
  rate_of (with_variant treatment equal_thirds)
  = rate_of (with_variant control equal_thirds)
  /\ norm_cdf Samples 0 = 0.5
  /\ exists summary relative_lift,
       returned (analyze_conversion_rate Samples equal_thirds)
       = Ok (summary, NpFloat 1, NpFloat 0, relative_lift)
       /\ In (Line "   Z-statistic:                {:.4f}" [Num (NpFloat 0)])
             (printed (analyze_conversion_rate Samples equal_thirds)).
Proof.
  split; [reflexivity | split; [reflexivity|]].
  apply (analyze_equal_rates Samples equal_thirds).
  - discriminate.
  - discriminate.
  - reflexivity.
  - reflexivity.
  - reflexivity.
  - reflexivity.
Defined.

(** C9 fails as stated: with one control and one treatment record, neither
    converted, the two rates are equal (both 0), the pooled standard error
    is 0, and the z statistic is 0/0, a NaN, whatever the library. *)
Lemma analyze_equal_zero_rates_nan :
  with_variant control no_conversions <> []
  /\ with_variant treatment no_conversions <> []
  /\ rate_of (with_variant treatment no_conversions)
     = rate_of (with_variant control no_conversions)
  /\ (forall L : Lib,
        In (Line "   Z-statistic:                {:.4f}" [Num (NpFloat nan)])
           (printed (analyze_conversion_rate L no_conversions)))
  /\ exists summary relative_lift,
       returned (analyze_conversion_rate Samples no_conversions)
       = Ok (summary, NpFloat nan, NpFloat 0, relative_lift).
Proof.
  assert (Hc : with_variant control no_conversions <> []) by discriminate.
  assert (Ht : with_variant treatment no_conversions <> []) by discriminate.
  split; [exact Hc | split; [exact Ht | split; [reflexivity | split]]].
  - intros L. destruct (analyze_run L no_conversions Hc Ht) as (out & Hrun & _ & Hz).
    unfold printed. rewrite Hrun. exact Hz.
  - do 2 eexists. vm_compute. reflexivity.
Qed.

End EqualRates.

Section Rounding.

#[local] Open Scope float_scope.

Lemma In_summary (L : Lib) df v :
  with_variant v df <> [] ->
  In (v, summarize L (with_variant v df)) (conversion_summary_of L df).
Proof.
  intros H. unfold conversion_summary_of.
  apply (in_map (fun k => (k, summarize L (with_variant k df)))).
  apply In_group_keys, with_variant_nonempty, H.
Qed.

(** C10.  In the summary that [analyze_conversion_rate] returns, every
    variant's conversion rate and total revenue are rounded to 4 decimals
    and its revenue per user is the rounded revenue divided by the sessions;
    the test and the lifts use the unrounded ratio conversions / sessions;
    and the two can differ: with 1 conversion in 3 control sessions the
    summary says 0.3333 and the analysis uses 0.33333333333333331. *)
Theorem conversion_summary_rounded (L : Lib) :
  (forall df v, with_variant v df <> [] ->
     let g := with_variant v df in
     exists r,
       In (v, r) (conversion_summary_of L df)
       /\ sessions r = NpInt (len g)
       /\ conversions r = NpInt (sum_converted g)
       /\ conversion_rate r = NpFloat (round4 (rate_of g))
       /\ total_revenue r = NpFloat (round4 (sum_float L (map order_value g)))
       /\ revenue_per_user r
          = NpFloat (round4 (sum_float L (map order_value g)) / of_Z (len g)))
  /\ (forall df,
        with_variant control df <> [] -> with_variant treatment df <> [] ->
        exists p relative_lift,
          returned (analyze_conversion_rate L df)
          = Ok (conversion_summary_of L df, p,
                NpFloat (rate_of (with_variant treatment df)
                         - rate_of (with_variant control df)),
                relative_lift)
          /\ In (Line "   Control conversion rate:    {:.3%}"
                   [Num (NpFloat (rate_of (with_variant control df)))])
                (printed (analyze_conversion_rate L df)))
  /\ (exists r,
        In (control, r) (conversion_summary_of L thirds)
        /\ conversion_rate r = NpFloat 0.3333
        /\ rate_of (with_variant control thirds) = 0.33333333333333331
        /\ conversion_rate r <> NpFloat (rate_of (with_variant control thirds))).
Proof.
  split; [|split].
  - intros df v H g. exists (summarize L g). split; [apply In_summary, H|].
    repeat split.
  - intros df Hc Ht. destruct (analyze_run L df Hc Ht) as (out & Hrun & Hrate & _).
    unfold returned, printed. rewrite Hrun. cbn [fst snd].
    do 2 eexists. split; [reflexivity | exact Hrate].
  - exists (summarize L (with_variant control thirds)).
    split; [apply In_summary; discriminate|].
    split; [vm_compute; reflexivity|].
    split; [vm_compute; reflexivity|].
    intros H.
    assert (E : (to_float (conversion_rate (summarize L (with_variant control thirds)))
                 =? to_float (NpFloat (rate_of (with_variant control thirds)))) = false)
      by (vm_compute; reflexivity).
    rewrite H in E. vm_compute in E. discriminate E.
Qed.

Lemma conversion_summary_rounded_witness :
  with_variant treatment thirds <> []
  /\ exists r,
       In (treatment, r) (conversion_summary_of Samples thirds)
       /\ sessions r = NpInt 3
       /\ conversions r = NpInt 2
       /\ conversion_rate r = NpFloat 0.6667
       /\ total_revenue r = NpFloat 20.1234
       /\ revenue_per_user r = NpFloat (20.1234 / 3).
Proof.
  assert (H : with_variant treatment thirds <> []) by discriminate.
  split; [exact H|].
  destruct (proj1 (conversion_summary_rounded Samples) thirds treatment H)
    as (r & Hin & Hs & Hc & Hr & Ht & Hu).
  exists r. split; [exact Hin|].
  rewrite Hs, Hc, Hr, Ht, Hu. repeat split; vm_compute; reflexivity.
Defined.

End Rounding.

(** ** [segmentation_analysis] *)

Section Segments.

#[local] Open Scope float_scope.

Variable L : Lib.
Variables (df : DataFrame) (segment_col : string) (min_sample_size : Z).

Lemma gated_in_iff seg :
  gated_in df segment_col min_sample_size seg = true
  <-> passes_gate df segment_col min_sample_size seg.
Proof.
  unfold gated_in, passes_gate. rewrite !andb_true_iff, !Z.leb_le. tauto.
Qed.

Lemma In_unique x l : In x (unique l) <-> In x l.
Proof.
  induction l as [|y l IH]; simpl; [tauto|].
  rewrite filter_In, IH, negb_true_iff.
  destruct (String.eqb_spec x y) as [E|E]; subst; intuition congruence.
Qed.


(** A segment that passes the gate has at least five sessions per variant,
    so it occurs in the data and the test has trials. *)
Lemma passes_gate_sessions seg :
  passes_gate df segment_col min_sample_size seg ->
  (5 <= len (segment_group df segment_col seg control))%Z
  /\ (5 <= len (segment_group df segment_col seg treatment))%Z.
Proof.
  intros (_ & _ & Hc & Ht).
  pose proof (sum_converted_le (segment_group df segment_col seg control)).
  pose proof (sum_converted_le (segment_group df segment_col seg treatment)).
  lia.
Qed.


(** One turn of the loop. *)
Lemma segment_body_run seg acc out :
  segment_body L df segment_col min_sample_size seg acc out
  = if gated_in df segment_col min_sample_size seg
    then (Ok (acc ++ [tested_row L df segment_col seg]),
          out ++ [tested_line (tested_row L df segment_col seg)])
    else (Ok acc, out ++ [insufficient_line seg]).
Proof.
  unfold segment_body.
  fold (segment_group df segment_col seg control).
  fold (segment_group df segment_col seg treatment).
  change (ge (PyInt (len (segment_group df segment_col seg control)))
             (PyInt min_sample_size)
          && ge (PyInt (len (segment_group df segment_col seg treatment)))
                (PyInt min_sample_size)
          && ge (NpInt (sum_converted (segment_group df segment_col seg control)))
                (PyInt 5)
          && ge (NpInt (sum_converted (segment_group df segment_col seg treatment)))
                (PyInt 5))%bool
    with (gated_in df segment_col min_sample_size seg).
  destruct (gated_in df segment_col min_sample_size seg) eqn:G; [|reflexivity].
  apply gated_in_iff, passes_gate_sessions in G. destruct G as [Gc Gt].
  unfold bind, div, lift, print, ret.
  cbn [truediv is_numpy orb to_float int_val].
  rewrite two_proportion_z_test_ok by lia.
  unfold tested_row, tested_line, gt, lt.
  cbn [fst snd sub mul arith is_numpy is_int to_float orb andb
       segment control_rate treatment_rate relative_lift p_value significant].
  rewrite of_Z_0.
  fold (rate_of (segment_group df segment_col seg control)).
  fold (rate_of (segment_group df segment_col seg treatment)).
  destruct (0 <? rate_of (segment_group df segment_col seg control));
    cbn [truediv is_numpy orb to_float sub mul arith]; rewrite ?of_Z_1, ?of_Z_100;
    reflexivity.
Qed.

Lemma for_each_segments segs acc out :
  for_each segs (segment_body L df segment_col min_sample_size) acc out
  = (Ok (acc ++ map (tested_row L df segment_col)
                  (filter (gated_in df segment_col min_sample_size) segs)),
     out ++ map (segment_line L df segment_col min_sample_size) segs).
Proof.
  revert acc out. induction segs as [|seg segs IH]; intros acc out.
  - cbn [for_each filter map]. unfold ret. rewrite !app_nil_r. reflexivity.
  - cbn [for_each filter map]. unfold bind. rewrite segment_body_run.
    unfold segment_line at 1.
    destruct (gated_in df segment_col min_sample_size seg); rewrite IH;
      cbn [map]; rewrite <- !app_assoc; reflexivity.
Qed.

(** The whole function: one row per segment that passes the gate, in the
    order of first occurrence, and one line per segment. *)
Lemma segmentation_analysis_run :
  run (segmentation_analysis L df segment_col min_sample_size)
  = (Ok (map (tested_row L df segment_col)
           (filter (gated_in df segment_col min_sample_size)
              (segments_of df segment_col))),
     [ Line " SEGMENTATION ANALYSIS: {}" [Str (str_upper L segment_col)];
       Line (str_mul "=" 60) [] ]
     ++ map (segment_line L df segment_col min_sample_size) (segments_of df segment_col)
     ++ [Line "" []]).
Proof.
  unfold segmentation_analysis, run, bind, print, ret.
  cbn [app]. fold (segments_of df segment_col).
  rewrite for_each_segments. cbn [app]. reflexivity.
Qed.

End Segments.

Section SegmentClaims.

#[local] Open Scope float_scope.

Lemma NoDup_unique l : NoDup (unique l).
Proof.
  induction l as [|x l IH]; simpl; constructor.
  - rewrite filter_In, negb_true_iff, String.eqb_refl. intros [_ H]. discriminate H.
  - apply NoDup_filter, IH.
Qed.



Example segment_tested_two_segments :
  returned (segmentation_analysis Samples two_segments "device" 5)
  = Ok [tested_row Samples two_segments "device" "mobile"]
  /\ printed (segmentation_analysis Samples two_segments "device" 5)
     = [ Line " SEGMENTATION ANALYSIS: {}" [Str "DEVICE"];
         Line "============================================================" [];
         tested_line (tested_row Samples two_segments "device" "mobile");
         insufficient_line "desktop";
         Line "" [] ].
Proof. split; vm_compute; reflexivity. Qed.

(** C2 (amended).  Every segment of the data that fails the gate is reported
    by [segmentation_analysis] with a printed line of its own,
    "Insufficient sample size for reliable testing", and has no row in the
    returned frame; and when every segment has fewer than [min_sample_size]
    records per variant, the returned frame has no row at all (zero
    segments tested) and one such line is printed per segment, in the order
    of first occurrence. *)
Theorem insufficient_segments_reported (L : Lib) (df : DataFrame)
    (segment_col : string) (min_sample_size : Z) :
  (forall seg,
     In seg (segments_of df segment_col) ->
     ~ passes_gate df segment_col min_sample_size seg ->
     In (insufficient_line seg)
        (printed (segmentation_analysis L df segment_col min_sample_size))
     /\ forall rows r,
          returned (segmentation_analysis L df segment_col min_sample_size) = Ok rows ->
          In r rows -> segment r <> seg)
  /\ ((forall seg,
         In seg (segments_of df segment_col) ->
         len (segment_group df segment_col seg control) < min_sample_size
         /\ len (segment_group df segment_col seg treatment) < min_sample_size) ->
      returned (segmentation_analysis L df segment_col min_sample_size) = Ok []
      /\ printed (segmentation_analysis L df segment_col min_sample_size)
         = [ Line " SEGMENTATION ANALYSIS: {}" [Str (str_upper L segment_col)];
             Line (str_mul "=" 60) [] ]
           ++ map insufficient_line (segments_of df segment_col)
           ++ [Line "" []]).
Proof.
  unfold returned, printed. rewrite segmentation_analysis_run. cbn [fst snd].
  split.
  - intros seg Hin Hfail.
    assert (G : gated_in df segment_col min_sample_size seg = false).
    { destruct (gated_in df segment_col min_sample_size seg) eqn:G; [|reflexivity].
      exfalso. apply Hfail, gated_in_iff, G. }
    split.
    + apply in_or_app. right. apply in_or_app. left. apply in_map_iff.
      exists seg. split; [|exact Hin]. unfold segment_line. rewrite G. reflexivity.
    + intros rows r Hrows Hr Hseg. injection Hrows as <-.
      apply in_map_iff in Hr. destruct Hr as (s & <- & Hs).
      apply filter_In in Hs. cbn [tested_row segment] in Hseg. subst s.
      destruct Hs as [_ Hs]. rewrite G in Hs. discriminate Hs.
  - intros Hsmall.
    assert (G : forall seg, In seg (segments_of df segment_col) ->
                  gated_in df segment_col min_sample_size seg = false).
    { intros seg Hin. destruct (Hsmall seg Hin) as [Hc _].
      unfold gated_in. apply Z.leb_gt in Hc. rewrite Hc. reflexivity. }
    induction (segments_of df segment_col) as [|seg segs IH].
    + split; reflexivity.
    + destruct IH as [IH1 IH2].
      * intros s Hs. apply Hsmall. right. exact Hs.
      * intros s Hs. apply G. right. exact Hs.
      * cbn [filter map app]. unfold segment_line at 1.
        rewrite (G seg) by (left; reflexivity).
        injection IH1 as IH1. rewrite IH1.
        cbn [app] in IH2. injection IH2 as IH2. rewrite IH2.
        split; reflexivity.
Qed.

Lemma insufficient_segments_reported_witness :
  In "desktop"%string (segments_of two_segments "device")
  /\ ~ passes_gate two_segments "device" 5 "desktop"%string
  /\ In (insufficient_line "desktop")
        (printed (segmentation_analysis Samples two_segments "device" 5))
  /\ returned (segmentation_analysis Samples two_segments "device" 100) = Ok []
  /\ printed (segmentation_analysis Samples two_segments "device" 100)
     = [ Line " SEGMENTATION ANALYSIS: {}" [Str "DEVICE"];
         Line "============================================================" [];
         insufficient_line "mobile";
         insufficient_line "desktop";
         Line "" [] ].
Proof.
  assert (Hin : In "desktop"%string (segments_of two_segments "device"))
    by (right; left; reflexivity).
  assert (Hfail : ~ passes_gate two_segments "device" 5 "desktop"%string).
  { intros (_ & H & _). vm_compute in H. apply H. reflexivity. }
  split; [exact Hin | split; [exact Hfail | split]].
  - apply (proj1 (insufficient_segments_reported Samples two_segments "device" 5)
             "desktop"%string Hin Hfail).
  - apply (proj2 (insufficient_segments_reported Samples two_segments "device" 100)).
    intros seg [<-|[<-|[]]]; split; reflexivity.
Defined.

(** C2 fails as stated: the returned frame does not hold the segments that
    fail the gate.  With five converted sessions per variant on mobile and
    six control and three treatment sessions on desktop, desktop fails the
    gate at a minimum of 5 and the frame returned is the one returned
    without the desktop records: the mobile row alone.  At a minimum of 100
    both segments fail and the returned frame is empty. *)
Lemma segmentation_drops_insufficient :
  segments_of two_segments "device" = ["mobile"; "desktop"]%string
  /\ ~ passes_gate two_segments "device" 5 "desktop"
  /\ (forall L : Lib,
        returned (segmentation_analysis L two_segments "device" 5)
        = Ok [tested_row L mobile_only "device" "mobile"]
        /\ returned (segmentation_analysis L two_segments "device" 5)
           = returned (segmentation_analysis L mobile_only "device" 5)
        /\ returned (segmentation_analysis L two_segments "device" 100) = Ok []).
Proof.
  split; [reflexivity | split].
  - intros (_ & H & _). vm_compute in H. apply H. reflexivity.
  - intros L. unfold returned. rewrite !segmentation_analysis_run.
    repeat split; vm_compute; reflexivity.
Qed.

End SegmentClaims.

(** * Further properties *)

(** ** More on [check_sample_ratio_mismatch] *)

Section SampleRatioMore.

#[local] Open Scope float_scope.

Lemma SFadd_comm x y : SFadd prec emax x y = SFadd prec emax y x.
Proof.
  destruct x as [sx|sx| |sx mx ex], y as [sy|sy| |sy my ey]; try reflexivity;
    unfold SFadd.
  - destruct sx, sy; reflexivity.
  - destruct sx, sy; reflexivity.
  - rewrite (Z.min_comm ex ey), Z.add_comm. reflexivity.
Qed.

(** Binary64 addition is commutative. *)
Lemma float_add_comm a b : a + b = b + a.
Proof.
  apply Prim2SF_inj. rewrite !add_spec. apply SFadd_comm.
Qed.

(** A comparison with a NaN is false. *)
Lemma ltb_not_nan a b : (a <? b) = true -> is_nan a = false /\ is_nan b = false.
Proof.
  rewrite ltb_spec, !is_nan_spec. unfold SFltb, SFcompare.
  destruct (Prim2SF a) as [[]|[]| |[] ? ?], (Prim2SF b) as [[]|[]| |[] ? ?];
    intros H; try discriminate H; split; reflexivity.
Qed.

Lemma value_counts_get_by_len df v :
  value_counts_get df v
  = if (len (with_variant v df) =? 0)%Z then PyInt 0 else NpInt (len (with_variant v df)).
Proof.
  unfold value_counts_get. destruct (with_variant v df) as [|r g]; [reflexivity|].
  unfold len. cbn [List.length]. rewrite Nat2Z.inj_succ.
  destruct (Z.eqb_spec (Z.succ (Z.of_nat (List.length g))) 0) as [E|E]; [lia | reflexivity].
Qed.

(** X1.  [check_sample_ratio_mismatch] fails exactly when the data has neither
    a control nor a treatment record, and then with ZeroDivisionError; on all
    other data, whatever the expected ratio and alpha (a NaN, a ratio outside
    [0, 1]), it returns a boolean after printing seven lines, the last of
    which says PASS exactly when the returned value is true. *)
Theorem check_srm_fails_iff_no_records (L : Lib) (df : DataFrame)
    (expected_ratio alpha : float) :
  let check := check_sample_ratio_mismatch L df expected_ratio alpha in
  ((exists e, returned check = Raise e)
   <-> with_variant control df = [] /\ with_variant treatment df = [])
  /\ (forall e, returned check = Raise e -> e = ZeroDivisionError)
  /\ (forall passed, returned check = Ok passed ->
        List.length (printed check) = 7%nat
        /\ last (printed check) (Line "" [])
           = Line "   Result: {}"
               [Str (if passed then "PASS" else "FAIL - INVESTIGATE")]).
Proof.
  intros check. unfold returned, printed, check.
  assert (Hcases :
    (with_variant control df = [] /\ with_variant treatment df = [])
    \/ (with_variant control df <> [] \/ with_variant treatment df <> [])).
  { destruct (with_variant control df); [|right; left; discriminate].
    destruct (with_variant treatment df); [left; split; reflexivity|].
    right; right; discriminate. }
  destruct Hcases as [[Ec Et]|Hpresent].
  - rewrite (check_srm_empty_raises L df expected_ratio alpha Ec Et). cbn [fst snd].
    split; [split; [intros _; split; assumption | intros _; eexists; reflexivity]|].
    split.
    + intros e H. symmetry. congruence.
    + intros passed H. discriminate H.
  - pose proof (check_srm_run L df expected_ratio alpha (total_is_numpy df Hpresent))
      as Hrun.
    cbv zeta in Hrun. rewrite Hrun. cbn [fst snd].
    split; [split|split].
    + intros [e H]. discriminate H.
    + intros [Ec Et]. destruct Hpresent as [H|H]; contradiction.
    + intros e H. discriminate H.
    + intros passed H. injection H as <-. split; reflexivity.
Qed.

(** X2.  The check looks at the two counts only: data with the same number
    of control records and the same number of treatment records (whatever
    other variants, columns and row order they have) give the same result
    and the same report.  At an expected ratio of 0.5 the verdict is also
    symmetric: exchanging the two counts does not change what is returned. *)
Theorem check_srm_counts_symmetry (L : Lib) (df df' : DataFrame) (alpha : float) :
  (forall expected_ratio,
     len (with_variant control df') = len (with_variant control df) ->
     len (with_variant treatment df') = len (with_variant treatment df) ->
     run (check_sample_ratio_mismatch L df' expected_ratio alpha)
     = run (check_sample_ratio_mismatch L df expected_ratio alpha))
  /\ (len (with_variant control df') = len (with_variant treatment df) ->
      len (with_variant treatment df') = len (with_variant control df) ->
      returned (check_sample_ratio_mismatch L df' 0.5 alpha)
      = returned (check_sample_ratio_mismatch L df 0.5 alpha)).
Proof.
  split.
  - intros expected_ratio Hc Ht. unfold check_sample_ratio_mismatch.
    rewrite !value_counts_get_by_len, Hc, Ht. reflexivity.
  - intros Hc Ht.
    assert (Ec : value_counts_get df' control = value_counts_get df treatment)
      by (rewrite !value_counts_get_by_len, Hc; reflexivity).
    assert (Et : value_counts_get df' treatment = value_counts_get df control)
      by (rewrite !value_counts_get_by_len, Ht; reflexivity).
    unfold check_sample_ratio_mismatch. rewrite Ec, Et.
    assert (Hhalf : of_Z 1 - 0.5 = 0.5) by (vm_compute; reflexivity).
    destruct (value_counts_get_cases df control) as [[_ ->]|[_ ->]];
      destruct (value_counts_get_cases df treatment) as [[_ ->]|[_ ->]];
      try reflexivity;
      unfold returned, run, bind, lift, print, ret;
      cbn [add sub mul arith pow2 truediv is_numpy to_float orb fst snd gt lt is_int
           andb int_val];
      rewrite ?Hhalf, ?Z.add_0_l, ?Z.add_0_r; try reflexivity.
    all: rewrite ?(Z.add_comm (len (with_variant treatment df))
                   (len (with_variant control df)));
      rewrite float_add_comm; reflexivity.
Qed.

Lemma check_srm_counts_symmetry_witness :
  run (check_sample_ratio_mismatch Samples
         [mk treatment true 5 "b"; mk "holdout" true 1 "b"; mk control false 0 "a"]
         0.3 0.001)
  = run (check_sample_ratio_mismatch Samples one_each 0.3 0.001)
  /\ returned (check_sample_ratio_mismatch Samples
                 (mk treatment false 0 "a" :: one_each) 0.5 0.001)
     = returned (check_sample_ratio_mismatch Samples
                   (mk control false 0 "a" :: one_each) 0.5 0.001).
Proof.
  split.
  - apply (proj1 (check_srm_counts_symmetry Samples one_each _ 0.001)); reflexivity.
  - apply (proj2 (check_srm_counts_symmetry Samples
                    (mk control false 0 "a" :: one_each) _ 0.001)); reflexivity.
Defined.

(** X3.  The check never passes on a NaN: when it returns true, alpha is a
    number, the p-value it printed is a number, and that p-value is greater
    than alpha.  (With a NaN alpha or a NaN p-value the comparison is false
    and the verdict is FAIL, not an error.) *)
Theorem check_srm_pass_needs_numbers (L : Lib) (df : DataFrame)
    (expected_ratio alpha : float) :
  returned (check_sample_ratio_mismatch L df expected_ratio alpha) = Ok true ->
  is_nan alpha = false
  /\ exists p,
       In (Line "   P-value: {:.6f}" [Num (NpFloat p)])
          (printed (check_sample_ratio_mismatch L df expected_ratio alpha))
       /\ is_nan p = false
       /\ (alpha <? p) = true.
Proof.
  unfold returned, printed. intros Hret.
  assert (Hpresent : with_variant control df <> [] \/ with_variant treatment df <> []).
  { destruct (with_variant control df) eqn:Ec; [|left; discriminate].
    destruct (with_variant treatment df) eqn:Et; [|right; discriminate].
    rewrite (check_srm_empty_raises L df expected_ratio alpha Ec Et) in Hret.
    discriminate Hret. }
  pose proof (check_srm_run L df expected_ratio alpha (total_is_numpy df Hpresent))
    as Hrun.
  cbv zeta in Hrun. rewrite Hrun in Hret |- *. cbn [fst snd] in Hret |- *.
  assert (Hlt : forall b : bool, Ok b = Ok true -> b = true) by (intros b H; congruence).
  apply Hlt in Hret. destruct (ltb_not_nan _ _ Hret) as [Ha Hp].
  split; [exact Ha|]. eexists. split; [|split; [exact Hp | exact Hret]].
  simpl. tauto.
Qed.

Lemma check_srm_pass_needs_numbers_witness :
  returned (check_sample_ratio_mismatch Samples one_each 0.5 0.001) = Ok true
  /\ exists p,
       In (Line "   P-value: {:.6f}" [Num (NpFloat p)])
          (printed (check_sample_ratio_mismatch Samples one_each 0.5 0.001))
       /\ is_nan p = false
       /\ (0.001 <? p) = true.
Proof.
  assert (H : returned (check_sample_ratio_mismatch Samples one_each 0.5 0.001) = Ok true)
    by (vm_compute; reflexivity).
  split; [exact H|].
  apply (check_srm_pass_needs_numbers Samples one_each 0.5 0.001 H).
Defined.

End SampleRatioMore.

(** ** More on [calculate_sample_size] *)

Section PlannerEdges.

#[local] Open Scope float_scope.

(** NaNs propagate through the arithmetic, and the square root of a NaN or
    of a negative number is a NaN. *)
Lemma add_nan_l a b : is_nan a = true -> is_nan (a + b) = true.
Proof.
  rewrite !is_nan_spec, add_spec. unfold SF64add.
  destruct (Prim2SF a); intros H; try discriminate H. reflexivity.
Qed.

Lemma add_nan_r a b : is_nan b = true -> is_nan (a + b) = true.
Proof. rewrite float_add_comm. apply add_nan_l. Qed.

Lemma mul_nan_l a b : is_nan a = true -> is_nan (a * b) = true.
Proof.
  rewrite !is_nan_spec, mul_spec. unfold SF64mul.
  destruct (Prim2SF a); intros H; try discriminate H. reflexivity.
Qed.

Lemma mul_nan_r a b : is_nan b = true -> is_nan (a * b) = true.
Proof.
  rewrite !is_nan_spec, mul_spec. unfold SF64mul.
  destruct (Prim2SF b); intros H; try discriminate H.
  destruct (Prim2SF a); reflexivity.
Qed.

Lemma div_nan_l a b : is_nan a = true -> is_nan (a / b) = true.
Proof.
  rewrite !is_nan_spec, div_spec. unfold SF64div.
  destruct (Prim2SF a); intros H; try discriminate H. reflexivity.
Qed.

Lemma sqrt_nan_or_negative x :
  is_nan x = true \/ (x <? 0) = true -> is_nan (PrimFloat.sqrt x) = true.
Proof.
  rewrite !is_nan_spec, ltb_spec, sqrt_spec. unfold SF64sqrt, SFltb, SFcompare.
  change (Prim2SF 0) with (S754_zero false).
  destruct (Prim2SF x) as [[]|[]| |[] m e]; intros [H|H]; try discriminate H;
    reflexivity.
Qed.

Lemma not_finite_cases x : is_finite x = false -> is_nan x = true \/ is_infinity x = true.
Proof.
  unfold is_finite. intros H. apply negb_false_iff, orb_true_iff in H. exact H.
Qed.

(** X4.  A minimum effect of zero (of either sign) is not refused and does
    not raise ZeroDivisionError: the division is NumPy's, the closed form is
    an infinity or a NaN, and the conversion to an integer raises
    OverflowError or ValueError.  Nothing is returned and nothing printed. *)
Theorem calculate_sample_size_zero_effect (L : Lib)
    (baseline_rate minimum_effect alpha power : float) :
  is_zero minimum_effect = true ->
  is_finite (plan_closed_form L baseline_rate minimum_effect alpha power) = false
  /\ (run (calculate_sample_size L baseline_rate minimum_effect alpha power)
      = (Raise OverflowError, [])
      \/ run (calculate_sample_size L baseline_rate minimum_effect alpha power)
         = (Raise ValueError, [])).
Proof.
  intros Hzero.
  assert (Hn : is_finite (plan_closed_form L baseline_rate minimum_effect alpha power)
               = false).
  { unfold plan_closed_form. apply square_not_finite, div_by_zero_not_finite.
    left. exact Hzero. }
  split; [exact Hn|].
  rewrite planner_run. unfold int_ceil. cbn [to_float].
  destruct (not_finite_cases _ Hn) as [H|H].
  - right. rewrite H. reflexivity.
  - destruct (is_nan _); [right; reflexivity | left; rewrite H; reflexivity].
Qed.

Lemma calculate_sample_size_zero_effect_witness :
  is_zero 0 = true
  /\ run (calculate_sample_size Samples 0.1 0 0.05 0.8) = (Raise OverflowError, []).
Proof.
  split; [reflexivity|].
  destruct (calculate_sample_size_zero_effect Samples 0.1 0 0.05 0.8 eq_refl)
    as [_ [H|H]]; [exact H|].
  vm_compute in H. discriminate H.
Defined.

(** X5.  Rates are not validated either.  When the baseline rate or the
    minimum effect is a NaN, or when the pooled rate lies outside [0, 1] so
    that 2 * p_pooled * (1 - p_pooled) is negative, the standard error
    coefficient is a NaN and the function raises ValueError, whatever the
    critical values. *)
Theorem calculate_sample_size_invalid_rate (L : Lib)
    (baseline_rate minimum_effect alpha power : float) :
  let p_pooled := (baseline_rate + (baseline_rate + minimum_effect)) / 2 in
  is_nan baseline_rate = true \/ is_nan minimum_effect = true
  \/ (2 * p_pooled * (1 - p_pooled) <? 0) = true ->
  run (calculate_sample_size L baseline_rate minimum_effect alpha power)
  = (Raise ValueError, []).
Proof.
  intros p_pooled H.
  assert (Hse : is_nan (PrimFloat.sqrt (2 * p_pooled * (1 - p_pooled))) = true).
  { apply sqrt_nan_or_negative. destruct H as [H|[H|H]]; [left|left|right; exact H].
    - apply mul_nan_l, mul_nan_r, div_nan_l, add_nan_l, H.
    - apply mul_nan_l, mul_nan_r, div_nan_l, add_nan_r, add_nan_r, H. }
  rewrite planner_run. unfold int_ceil, plan_closed_form. cbn [to_float].
  fold p_pooled.
  rewrite (libm_pow_nan L _ (div_nan_l _ minimum_effect (mul_nan_r _ _ Hse))).
  reflexivity.
Qed.

Lemma calculate_sample_size_invalid_rate_witness :
  (2 * ((0.95 + (0.95 + 0.2)) / 2) * (1 - (0.95 + (0.95 + 0.2)) / 2) <? 0) = true
  /\ run (calculate_sample_size Samples 0.95 0.2 0.05 0.8) = (Raise ValueError, []).
Proof.
  split; [reflexivity|].
  apply (calculate_sample_size_invalid_rate Samples 0.95 0.2 0.05 0.8).
  right; right. reflexivity.
Defined.

End PlannerEdges.

(** ** The ceiling of the planner *)

Section PlannerCeiling.

Lemma ceil_unique (x : R) (k : Z) : (x <= IZR k < x + 1)%R -> Ideal.ceil x = k.
Proof.
  intros [H1 H2]. destruct (IdealFacts.ceil_bounds x) as [H3 H4].
  assert (Ha : (IZR (Ideal.ceil x) < IZR (k + 1))%R) by (rewrite plus_IZR; lra).
  assert (Hb : (IZR k < IZR (Ideal.ceil x + 1))%R) by (rewrite plus_IZR; lra).
  apply lt_IZR in Ha, Hb. lia.
Qed.

Lemma ceil_IZR (k : Z) : Ideal.ceil (IZR k) = k.
Proof. apply ceil_unique. lra. Qed.

Lemma two_pow_IZR (p : positive) : (2 ^ Pos.to_nat p)%R = IZR (2 ^ Zpos p).
Proof.
  rewrite <- (positive_nat_Z p), <- pow_IZR. reflexivity.
Qed.

(** On a finite number [Zceil] is the ceiling of the exact value. *)
Lemma Zceil_real (x : float) :
  is_finite x = true -> Zceil x = Ideal.ceil (real_value x).
Proof.
  rewrite is_finite_spec. unfold Zceil, real_value.
  destruct (Prim2SF x) as [s|s| |s m e]; intros H; try discriminate H.
  - symmetry. apply IdealFacts.ceil_0.
  - clear H. set (v := cond_Zopp s (Zpos m)). destruct e as [|p|p].
    + cbn [Z.leb Z.compare Z.pow powerRZ]. rewrite Rmult_1_r, Z.mul_1_r.
      symmetry. apply ceil_IZR.
    + cbn [Z.leb Z.compare powerRZ]. rewrite two_pow_IZR, <- mult_IZR.
      symmetry. apply ceil_IZR.
    + cbn [Z.leb Z.compare powerRZ Z.opp]. rewrite two_pow_IZR.
      symmetry. apply ceil_unique.
      assert (Hpos : 0 < 2 ^ Zpos p) by (apply Z.pow_pos_nonneg; lia).
      pose proof (Z.div_mod (- v) (2 ^ Zpos p)) as Hdm.
      pose proof (Z.mod_pos_bound (- v) (2 ^ Zpos p) Hpos) as Hr.
      set (d := 2 ^ Zpos p) in *. set (q := - v / d) in *. set (r := (- v) mod d) in *.
      assert (Ev : v = - q * d - r) by lia.
      assert (Hd : (0 < IZR d)%R) by (apply IZR_lt; exact Hpos).
      rewrite Ev, minus_IZR, mult_IZR.
      assert (Hr1 : (0 <= IZR r)%R) by (apply IZR_le; lia).
      assert (Hr2 : (IZR r < IZR d)%R) by (apply IZR_lt; lia).
      assert (Hfrac : (0 <= IZR r * / IZR d < 1)%R).
      { split.
        - apply Rmult_le_pos; [exact Hr1 | left; apply Rinv_0_lt_compat, Hd].
        - apply (Rmult_lt_reg_r (IZR d)); [exact Hd|].
          rewrite Rmult_assoc, Rinv_l, Rmult_1_r, Rmult_1_l by lra. exact Hr2. }
      replace ((IZR (- q) * IZR d - IZR r) * / IZR d)%R
        with (IZR (- q) - IZR r * / IZR d)%R by (field; lra).
      lra.
Qed.

(** X6.  Whenever the closed form, as the code computes it (the square by
    the C library's [pow]), is finite, the returned sample size is the
    mathematical ceiling of its exact value: the least integer that is not
    below it, so never too small and too large by less than one. *)
Theorem calculate_sample_size_is_ceiling (L : Lib)
    (baseline_rate minimum_effect alpha power : float) :
  let n := plan_closed_form L baseline_rate minimum_effect alpha power in
  is_finite n = true ->
  exists k,
    run (calculate_sample_size L baseline_rate minimum_effect alpha power) = (Ok k, [])
    /\ k = Ideal.ceil (real_value n)
    /\ (real_value n <= IZR k < real_value n + 1)%R
    /\ (forall j, (real_value n <= IZR j)%R -> k <= j).
Proof.
  intros n Hfin. exists (Zceil n).
  split.
  - rewrite planner_run. fold n. unfold int_ceil. cbn [to_float].
    unfold is_finite in Hfin. apply negb_true_iff, orb_false_iff in Hfin.
    destruct Hfin as [Hn Hi]. rewrite Hn, Hi. reflexivity.
  - rewrite (Zceil_real n Hfin).
    split; [reflexivity|]. split; [apply IdealFacts.ceil_bounds|].
    intros j Hj. destruct (IdealFacts.ceil_bounds (real_value n)) as [_ H].
    assert (Hlt : (IZR (Ideal.ceil (real_value n)) < IZR (j + 1))%R)
      by (rewrite plus_IZR; lra).
    apply lt_IZR in Hlt. lia.
Qed.

Lemma calculate_sample_size_is_ceiling_witness :
  is_finite (plan_closed_form Samples 0.1 0.02 0.05 0.8)%float = true
  /\ exists k,
       run (calculate_sample_size Samples 0.1 0.02 0.05 0.8)%float = (Ok k, [])
       /\ k = Ideal.ceil (real_value (plan_closed_form Samples 0.1 0.02 0.05 0.8)%float)
       /\ (real_value (plan_closed_form Samples 0.1 0.02 0.05 0.8)%float <= IZR k
           < real_value (plan_closed_form Samples 0.1 0.02 0.05 0.8)%float + 1)%R
       /\ (forall j,
             (real_value (plan_closed_form Samples 0.1 0.02 0.05 0.8)%float <= IZR j)%R ->
             k <= j).
Proof.
  split; [reflexivity|].
  apply (calculate_sample_size_is_ceiling Samples 0.1 0.02 0.05 0.8)%float.
  reflexivity.
Defined.

End PlannerCeiling.

(** ** When the planner returns 0 *)

Section PlannerZero.

#[local] Open Scope float_scope.

Lemma Zceil_zero x : is_zero x = true -> Zceil x = 0%Z.
Proof.
  rewrite is_zero_spec. unfold Zceil.
  destruct (Prim2SF x); intros H; try discriminate H. reflexivity.
Qed.

(** The ceiling of a positive finite number is at least 1. *)
Lemma Zceil_positive x :
  is_finite x = true -> is_zero x = false -> negative_sf (Prim2SF x) = false ->
  (1 <= Zceil x)%Z.
Proof.
  rewrite is_finite_spec, is_zero_spec. unfold Zceil.
  destruct (Prim2SF x) as [s|s| |s m e]; intros Hf Hz Hs; try discriminate.
  destruct s; [discriminate Hs|]. cbn [cond_Zopp].
  destruct (Z.leb_spec 0 e) as [He|He].
  - assert (0 < 2 ^ e)%Z by (apply Z.pow_pos_nonneg; lia). nia.
  - assert (Hd : (0 < 2 ^ (- e))%Z) by (apply Z.pow_pos_nonneg; lia).
    assert ((- Z.pos m) / 2 ^ (- e) < 0)%Z by (apply Z.div_lt_upper_bound; lia).
    lia.
Qed.

(** X7.  Whenever the closed form is finite, the returned sample size is 0
    exactly when the closed form is a zero (the critical values cancel, or
    the square underflows); whenever the closed form is not a zero, the
    returned size is at least 1. *)
Theorem calculate_sample_size_zero_iff (L : Lib)
    (baseline_rate minimum_effect alpha power : float) :
  let n := plan_closed_form L baseline_rate minimum_effect alpha power in
  is_finite n = true ->
  exists k,
    run (calculate_sample_size L baseline_rate minimum_effect alpha power) = (Ok k, [])
    /\ (k = 0%Z <-> is_zero n = true)
    /\ (is_zero n = false -> (1 <= k)%Z).
Proof.
  intros n Hfin. exists (Zceil n). split.
  - rewrite planner_run. fold n. unfold int_ceil. cbn [to_float].
    unfold is_finite in Hfin. apply negb_true_iff, orb_false_iff in Hfin.
    destruct Hfin as [Hn Hi]. rewrite Hn, Hi. reflexivity.
  - assert (Hpos : is_zero n = false -> (1 <= Zceil n)%Z).
    { intros Hz. apply Zceil_positive; [exact Hfin | exact Hz |].
      unfold n, plan_closed_form. apply square_not_negative. }
    split; [|exact Hpos]. split.
    + intros Hk. destruct (is_zero n); [reflexivity|]. specialize (Hpos eq_refl). lia.
    + apply Zceil_zero.
Qed.

Lemma calculate_sample_size_zero_iff_witness :
  is_finite (plan_closed_form Samples 0.1 0.02 0.5 0.25) = true
  /\ is_zero (plan_closed_form Samples 0.1 0.02 0.5 0.25) = true
  /\ exists k,
       run (calculate_sample_size Samples 0.1 0.02 0.5 0.25) = (Ok k, [])
       /\ (k = 0%Z <-> is_zero (plan_closed_form Samples 0.1 0.02 0.5 0.25) = true)
       /\ (is_zero (plan_closed_form Samples 0.1 0.02 0.5 0.25) = false -> (1 <= k)%Z).
Proof.
  split; [reflexivity | split; [reflexivity|]].
  apply (calculate_sample_size_zero_iff Samples 0.1 0.02 0.5 0.25). reflexivity.
Defined.

End PlannerZero.

(** ** More on [analyze_conversion_rate] *)

Section SummaryShape.

Variable L : Lib.

Lemma compare_lt_trans a b c :
  String.compare a b = Lt -> String.compare b c = Lt -> String.compare a c = Lt.
Proof.
  intros H1 H2. apply OrderedTypeEx.String_as_OT.cmp_lt.
  apply OrderedTypeEx.String_as_OT.cmp_lt in H1. apply OrderedTypeEx.String_as_OT.cmp_lt in H2.
  eapply OrderedTypeEx.String_as_OT.lt_trans; eassumption.
Qed.

Lemma compare_lt_irrefl a : String.compare a a <> Lt.
Proof.
  intros H. pose proof (String.compare_antisym a a) as E.
  rewrite H in E. discriminate E.
Qed.

Lemma insert_key_sorted k ks :
  StronglySorted (fun a b => String.compare a b = Lt) ks ->
  StronglySorted (fun a b => String.compare a b = Lt) (insert_key k ks).
Proof.
  induction ks as [|k' ks IH]; intros H; cbn [insert_key].
  - constructor; constructor.
  - apply StronglySorted_inv in H. destruct H as [Hs Hf].
    destruct (String.compare k k') eqn:E.
    + constructor; assumption.
    + constructor; [constructor; assumption|].
      constructor; [exact E|]. eapply Forall_impl; [|exact Hf].
      intros x Hx. eapply compare_lt_trans; eassumption.
    + constructor; [apply IH, Hs|].
      apply Forall_forall. intros x Hx. apply In_insert_key in Hx.
      destruct Hx as [->|Hx].
      * rewrite String.compare_antisym, E. reflexivity.
      * rewrite Forall_forall in Hf. apply Hf, Hx.
Qed.

Lemma group_keys_sorted df :
  StronglySorted (fun a b => String.compare a b = Lt) (group_keys df).
Proof.
  unfold group_keys. induction (map variant df) as [|k ks IH]; cbn [fold_right].
  - constructor.
  - apply insert_key_sorted, IH.
Qed.

Lemma sorted_NoDup ks :
  StronglySorted (fun a b => String.compare a b = Lt) ks -> NoDup ks.
Proof.
  induction 1 as [|k ks Hs IH Hf]; constructor; [|exact IH].
  intros Hin. rewrite Forall_forall in Hf. apply (compare_lt_irrefl k), Hf, Hin.
Qed.

Lemma summary_keys df : map fst (conversion_summary_of L df) = group_keys df.
Proof.
  unfold conversion_summary_of. rewrite map_map. cbn [fst]. apply map_id.
Qed.

Lemma In_summary_inv df v r :
  In (v, r) (conversion_summary_of L df) ->
  In v (map variant df) /\ r = summarize L (with_variant v df).
Proof.
  unfold conversion_summary_of. intros H. apply in_map_iff in H.
  destruct H as (k & E & Hk). injection E as -> <-.
  split; [apply In_group_keys, Hk | reflexivity].
Qed.

(** Sums over the groups. *)
Lemma sum_map_add {A} (f g : A -> Z) l :
  fold_right Z.add 0 (map (fun k => f k + g k) l)
  = fold_right Z.add 0 (map f l) + fold_right Z.add 0 (map g l).
Proof. induction l as [|x l IH]; cbn [map fold_right]; lia. Qed.

Lemma sum_indicator x (b : bool) keys :
  NoDup keys -> In x keys ->
  fold_right Z.add 0 (map (fun k => if String.eqb x k && b then 1 else 0) keys)
  = if b then 1 else 0.
Proof.
  induction 1 as [|k keys Hk Hnd IH]; intros Hin; [contradiction|].
  cbn [map fold_right]. destruct (String.eqb_spec x k) as [E|E].
  - subst k. cbn [andb].
    assert (Hz : fold_right Z.add 0
                   (map (fun k => if String.eqb x k && b then 1 else 0) keys) = 0).
    { clear IH Hnd Hin. induction keys as [|k keys IH]; [reflexivity|].
      cbn [map fold_right]. destruct (String.eqb_spec x k) as [E|E].
      - exfalso. apply Hk. left. symmetry. exact E.
      - cbn [andb]. rewrite IH; [reflexivity|]. intros H. apply Hk. right. exact H. }
    rewrite Hz. destruct b; reflexivity.
  - cbn [andb]. rewrite IH; [reflexivity|]. destruct Hin as [H|H]; [|exact H].
    exfalso. apply E. symmetry. exact H.
Qed.

Lemma group_sizes_sum (p : row -> bool) keys (l : DataFrame) :
  NoDup keys -> (forall r, In r l -> In (variant r) keys) ->
  fold_right Z.add 0 (map (fun k => len (filter p (with_variant k l))) keys)
  = len (filter p l).
Proof.
  intros Hnd. induction l as [|r l IH]; intros Hin.
  - cbn [with_variant filter]. clear Hnd Hin.
    induction keys as [|k keys IHk]; cbn [map fold_right];
      [reflexivity | rewrite IHk; reflexivity].
  - rewrite (map_ext _ (fun k => (if String.eqb (variant r) k && p r then 1 else 0)
                                 + len (filter p (with_variant k l)))).
    + rewrite sum_map_add, IH by (intros r' Hr'; apply Hin; right; exact Hr').
      rewrite sum_indicator by (try assumption; apply Hin; left; reflexivity).
      cbn [filter]. destruct (p r); unfold len; cbn [List.length]; lia.
    + intros k. unfold with_variant. cbn [filter].
      destruct (String.eqb (variant r) k); cbn [andb filter]; [|reflexivity].
      destruct (p r); unfold len; cbn [List.length]; lia.
Qed.

Lemma filter_all {A} (l : list A) : filter (fun _ => true) l = l.
Proof. induction l as [|x l IH]; cbn [filter]; [reflexivity | rewrite IH; reflexivity]. Qed.

(** X8.  The summary has one row per variant label that occurs in the data,
    labels other than control and treatment included, in ascending order of
    the labels (so without repeats); the row of a label is computed from the
    records of that label alone. *)
Theorem conversion_summary_keys (df : DataFrame) :
  let keys := map fst (conversion_summary_of L df) in
  StronglySorted (fun a b => String.compare a b = Lt) keys
  /\ NoDup keys
  /\ (forall v, In v keys <-> In v (map variant df))
  /\ (forall v r, In (v, r) (conversion_summary_of L df) ->
        r = summarize L (with_variant v df)).
Proof.
  intros keys. unfold keys. rewrite summary_keys.
  split; [apply group_keys_sorted|].
  split; [apply sorted_NoDup, group_keys_sorted|].
  split; [intros v; apply In_group_keys|].
  intros v r H. apply In_summary_inv in H. apply H.
Qed.

(** X9.  The groups of the summary partition the data: every row of the
    summary has at least one session and between 0 and [sessions]
    conversions, the sessions of all rows add up to the number of records
    and the conversions to the number of converted records. *)
Theorem conversion_summary_partition (df : DataFrame) :
  let summary := conversion_summary_of L df in
  (forall v r, In (v, r) summary ->
     exists n k, sessions r = NpInt n /\ conversions r = NpInt k
                 /\ 1 <= n /\ 0 <= k <= n)
  /\ fold_right Z.add 0 (map (fun kr => int_val (sessions (snd kr))) summary) = len df
  /\ fold_right Z.add 0 (map (fun kr => int_val (conversions (snd kr))) summary)
     = sum_converted df.
Proof.
  intros summary. unfold summary.
  assert (Hnd : NoDup (group_keys df)) by apply sorted_NoDup, group_keys_sorted.
  assert (Hin : forall r, In r df -> In (variant r) (group_keys df)).
  { intros r Hr. apply In_group_keys, in_map, Hr. }
  split; [|split].
  - intros v r H. apply In_summary_inv in H. destruct H as [Hv ->].
    exists (len (with_variant v df)), (sum_converted (with_variant v df)).
    split; [reflexivity | split; [reflexivity|]].
    apply with_variant_nonempty in Hv.
    pose proof (len_nonneg (with_variant v df)).
    pose proof (len_nonzero _ Hv).
    pose proof (sum_converted_le (with_variant v df)).
    pose proof (len_nonneg (filter converted (with_variant v df))).
    unfold sum_converted in *. lia.
  - unfold conversion_summary_of. rewrite map_map. cbn [snd summarize sessions int_val].
    rewrite <- (filter_all df) at 2. rewrite <- (group_sizes_sum _ _ _ Hnd Hin).
    apply f_equal, map_ext. intros k. rewrite filter_all. reflexivity.
  - unfold conversion_summary_of. rewrite map_map. cbn [snd summarize conversions int_val].
    unfold sum_converted. apply (group_sizes_sum converted _ _ Hnd Hin).
Qed.

End SummaryShape.

Section AnalysisMore.

#[local] Open Scope float_scope.

Variable L : Lib.

Lemma with_variant_others v (df others : DataFrame) :
  (forall r, In r others -> variant r <> v) ->
  with_variant v (df ++ others) = with_variant v df.
Proof.
  intros H. unfold with_variant. rewrite filter_app.
  assert (E : filter (fun r => String.eqb (variant r) v) others = []).
  { induction others as [|r others IH]; [reflexivity|]. cbn [filter].
    destruct (String.eqb_spec (variant r) v) as [E|E].
    - exfalso. apply (H r); [left; reflexivity | exact E].
    - apply IH. intros r' Hr'. apply H. right. exact Hr'. }
  rewrite E. apply app_nil_r.
Qed.

(** The analysis reads the control and the treatment records only: two
    frames with the same control group and the same treatment group give the
    same numbers and the same report. *)
Lemma analyze_same_groups df df' :
  with_variant control df <> [] -> with_variant treatment df <> [] ->
  with_variant control df' = with_variant control df ->
  with_variant treatment df' = with_variant treatment df ->
  exists p lift relative out,
    run (analyze_conversion_rate L df)
    = (Ok (conversion_summary_of L df, p, lift, relative), out)
    /\ run (analyze_conversion_rate L df')
       = (Ok (conversion_summary_of L df', p, lift, relative), out).
Proof.
  intros Hc Ht Ec Et.
  assert (Hc' : with_variant control df' <> []) by (rewrite Ec; exact Hc).
  assert (Ht' : with_variant treatment df' <> []) by (rewrite Et; exact Ht).
  unfold analyze_conversion_rate.
  rewrite !(loc_present L df control), !(loc_present L df treatment) by assumption.
  rewrite !(loc_present L df' control), !(loc_present L df' treatment) by assumption.
  rewrite Ec, Et.
  unfold run, bind, print, ret, div, lift.
  cbn [summarize sessions conversions revenue_per_user int_val truediv is_numpy orb
       to_float fst snd].
  rewrite (two_proportion_z_test_ok _ _ _ _ _ (len_nonzero _ Ht) (len_nonzero _ Hc)).
  cbn [fst snd add sub mul arith is_numpy to_float orb].
  do 4 eexists. split; reflexivity.
Qed.

(** X10.  Records of other variants (a third arm, a mislabelled group) are
    not refused and do not change the analysis: with them appended, the
    p-value, the absolute and the relative lift and the whole printed report
    are the same; only the returned summary gains a row per extra label. *)
Theorem analyze_ignores_other_variants (df others : DataFrame) :
  with_variant control df <> [] -> with_variant treatment df <> [] ->
  (forall r, In r others -> variant r <> control /\ variant r <> treatment) ->
  exists p lift relative,
    returned (analyze_conversion_rate L df)
    = Ok (conversion_summary_of L df, p, lift, relative)
    /\ returned (analyze_conversion_rate L (df ++ others))
       = Ok (conversion_summary_of L (df ++ others), p, lift, relative)
    /\ printed (analyze_conversion_rate L (df ++ others))
       = printed (analyze_conversion_rate L df)
    /\ (forall v, In v (map variant others) ->
          In v (map fst (conversion_summary_of L (df ++ others)))).
Proof.
  intros Hc Ht Hother.
  destruct (analyze_same_groups df (df ++ others) Hc Ht) as (p & l & rl & out & H1 & H2).
  - apply with_variant_others. intros r Hr. apply (Hother r Hr).
  - apply with_variant_others. intros r Hr. apply (Hother r Hr).
  - exists p, l, rl. unfold returned, printed. rewrite H1, H2. cbn [fst snd].
    split; [reflexivity | split; [reflexivity | split; [reflexivity|]]].
    intros v Hv. rewrite summary_keys. apply In_group_keys.
    rewrite map_app. apply in_or_app. right. exact Hv.
Qed.

(** X11.  A control group without revenue is not refused either: when its
    revenue per user is 0, the analysis still returns, and the last line of
    the report, the revenue lift (treatment / control - 1) * 100, shows an
    infinity or a NaN. *)
Theorem analyze_zero_control_revenue (df : DataFrame) :
  with_variant control df <> [] -> with_variant treatment df <> [] ->
  let per_user g := round4 (sum_float L (map order_value g)) / of_Z (len g) in
  is_zero (per_user (with_variant control df)) = true ->
  exists result revenue_lift,
    returned (analyze_conversion_rate L df) = Ok result
    /\ last (printed (analyze_conversion_rate L df)) (Line "" [])
       = Line "   Revenue lift:               {:.2f}%" [Num (NpFloat revenue_lift)]
    /\ revenue_lift
       = (per_user (with_variant treatment df) / per_user (with_variant control df) - 1)
         * 100
    /\ is_finite revenue_lift = false.
Proof.
  intros Hc Ht per_user Hzero.
  unfold returned, printed, analyze_conversion_rate.
  rewrite !(loc_present L df control), !(loc_present L df treatment) by assumption.
  unfold run, bind, print, ret, div, lift.
  cbn [summarize sessions conversions revenue_per_user int_val truediv is_numpy orb
       to_float fst snd].
  rewrite (two_proportion_z_test_ok _ _ _ _ _ (len_nonzero _ Ht) (len_nonzero _ Hc)).
  cbn [fst snd add sub mul arith is_numpy to_float orb app last].
  rewrite of_Z_1, of_Z_100. fold (per_user (with_variant control df)).
  fold (per_user (with_variant treatment df)).
  do 2 eexists. split; [reflexivity | split; [reflexivity | split; [reflexivity|]]].
  apply mul_not_finite_l, sub_not_finite_l, div_by_zero_not_finite.
  left. exact Hzero.
Qed.

End AnalysisMore.

Section AnalysisExamples.

#[local] Open Scope float_scope.

Lemma analyze_ignores_other_variants_witness :
  exists p lift relative,
    returned (analyze_conversion_rate Samples one_each)
    = Ok (conversion_summary_of Samples one_each, p, lift, relative)
    /\ returned (analyze_conversion_rate Samples (one_each ++ [mk "holdout" true 3 "all"]))
       = Ok (conversion_summary_of Samples (one_each ++ [mk "holdout" true 3 "all"]),
             p, lift, relative)
    /\ printed (analyze_conversion_rate Samples (one_each ++ [mk "holdout" true 3 "all"]))
       = printed (analyze_conversion_rate Samples one_each)
    /\ (forall v, In v (map variant [mk "holdout" true 3 "all"]) ->
          In v (map fst (conversion_summary_of Samples
                           (one_each ++ [mk "holdout" true 3 "all"])))).
Proof.
  apply (analyze_ignores_other_variants Samples one_each [mk "holdout" true 3 "all"]).
  - discriminate.
  - discriminate.
  - intros r [<-|[]]. split; discriminate.
Defined.

Lemma analyze_zero_control_revenue_witness :
  is_zero (round4 (sum_float Samples (map order_value (with_variant control one_each)))
           / of_Z (len (with_variant control one_each))) = true
  /\ exists result revenue_lift,
       returned (analyze_conversion_rate Samples one_each) = Ok result
       /\ last (printed (analyze_conversion_rate Samples one_each)) (Line "" [])
          = Line "   Revenue lift:               {:.2f}%" [Num (NpFloat revenue_lift)]
       /\ revenue_lift
          = (round4 (sum_float Samples (map order_value (with_variant treatment one_each)))
             / of_Z (len (with_variant treatment one_each))
             / (round4 (sum_float Samples (map order_value (with_variant control one_each)))
                / of_Z (len (with_variant control one_each))) - 1) * 100
       /\ is_finite revenue_lift = false.
Proof.
  split; [vm_compute; reflexivity|].
  apply (analyze_zero_control_revenue Samples one_each).
  - discriminate.
  - discriminate.
  - vm_compute. reflexivity.
Defined.

End AnalysisExamples.

(** ** More on [segmentation_analysis] *)

Section SegmentsMore.

#[local] Open Scope float_scope.

Variable L : Lib.
Variables (df : DataFrame) (segment_col : string).

Lemma In_segments_of s :
  In s (segments_of df segment_col) <-> exists r, In r df /\ attr r segment_col = s.
Proof.
  unfold segments_of. rewrite In_unique, in_map_iff.
  split; intros (r & H1 & H2); exists r; auto.
Qed.

Lemma filter_none {A} (p : A -> bool) l :
  (forall x, In x l -> p x = false) -> filter p l = [].
Proof.
  induction l as [|x l IH]; intros H; [reflexivity|]. cbn [filter].
  rewrite (H x) by (left; reflexivity). apply IH.
  intros y Hy. apply H. right. exact Hy.
Qed.

Lemma filter_twice {A} (p : A -> bool) l : filter p (filter p l) = filter p l.
Proof.
  induction l as [|x l IH]; [reflexivity|]. cbn [filter].
  destruct (p x) eqn:E; [cbn [filter]; rewrite E, IH; reflexivity | exact IH].
Qed.

Lemma filter_of_map {A B} (p : B -> bool) (f : A -> B) l :
  filter p (map f l) = map f (filter (fun x => p (f x)) l).
Proof.
  induction l as [|x l IH]; [reflexivity|]. cbn [map filter].
  destruct (p (f x)); cbn [map]; rewrite IH; reflexivity.
Qed.

Lemma filter_both {A} (p q : A -> bool) l :
  filter q (filter p l) = filter (fun x => p x && q x) l.
Proof.
  induction l as [|x l IH]; [reflexivity|]. cbn [filter].
  destruct (p x); cbn [filter andb]; [destruct (q x)|]; rewrite IH; reflexivity.
Qed.

Lemma unique_constant x l :
  l <> [] -> (forall y, In y l -> y = x) -> unique l = [x].
Proof.
  destruct l as [|y l]; [contradiction|]. intros _ H. cbn [unique].
  rewrite (H y) by (left; reflexivity). f_equal.
  apply filter_none. intros z Hz. apply (proj1 (In_unique z l)) in Hz.
  rewrite (H z) by (right; exact Hz). rewrite String.eqb_refl. reflexivity.
Qed.

(** The records of a segment, selected again, are the same records. *)
Lemma segment_group_alone seg v :
  segment_group (in_segment segment_col seg df) segment_col seg v
  = segment_group df segment_col seg v.
Proof.
  unfold segment_group, in_segment. rewrite filter_twice. reflexivity.
Qed.

Lemma gated_in_alone m seg :
  gated_in (in_segment segment_col seg df) segment_col m seg
  = gated_in df segment_col m seg.
Proof. unfold gated_in. rewrite !segment_group_alone. reflexivity. Qed.

Lemma tested_row_alone seg :
  tested_row L (in_segment segment_col seg df) segment_col seg
  = tested_row L df segment_col seg.
Proof. unfold tested_row. rewrite !segment_group_alone. reflexivity. Qed.

(** The gate at a higher minimum is the gate at a lower one and the two
    session counts at least the higher minimum. *)
Lemma gated_in_raise m m' seg :
  (m <= m')%Z ->
  gated_in df segment_col m' seg
  = gated_in df segment_col m seg
    && ((m' <=? len (segment_group df segment_col seg control))%Z
        && (m' <=? len (segment_group df segment_col seg treatment))%Z).
Proof.
  intros Hle. unfold gated_in.
  destruct (Z.leb_spec m' (len (segment_group df segment_col seg control)));
    destruct (Z.leb_spec m' (len (segment_group df segment_col seg treatment)));
    destruct (Z.leb_spec m (len (segment_group df segment_col seg control)));
    destruct (Z.leb_spec m (len (segment_group df segment_col seg treatment)));
    try lia; cbn [andb]; rewrite ?andb_true_r, ?andb_false_r; reflexivity.
Qed.

(** Five conversions take five sessions: below 5 the minimum has no say. *)
Lemma gated_in_small m seg :
  (m <= 5)%Z -> gated_in df segment_col m seg = gated_in df segment_col 5 seg.
Proof.
  intros Hle. unfold gated_in.
  pose proof (sum_converted_le (segment_group df segment_col seg control)).
  pose proof (sum_converted_le (segment_group df segment_col seg treatment)).
  destruct (Z.leb_spec 5 (sum_converted (segment_group df segment_col seg control)));
    [|rewrite !andb_false_r; reflexivity].
  destruct (Z.leb_spec 5 (sum_converted (segment_group df segment_col seg treatment)));
    [|rewrite !andb_false_r; reflexivity].
  rewrite !andb_true_r.
  rewrite !(proj2 (Z.leb_le _ _)) by lia. reflexivity.
Qed.

(** X12.  The report and the returned frame follow the distinct values of
    the segment column in the order of [unique()]: every value that occurs
    in the data is a segment, once; the report is the title line with the
    upper-cased column name, the line of 60 equal signs, one line per
    segment in that order, and a closing empty line, and nothing else; and
    the segments of the returned rows are the segments that pass the gate,
    in that same order. *)
Theorem segmentation_order_and_lines (min_sample_size : Z) :
  let segs := segments_of df segment_col in
  let report := printed (segmentation_analysis L df segment_col min_sample_size) in
  NoDup segs
  /\ (forall s, In s segs <-> exists r, In r df /\ attr r segment_col = s)
  /\ (exists rows,
        returned (segmentation_analysis L df segment_col min_sample_size) = Ok rows
        /\ map segment rows = filter (gated_in df segment_col min_sample_size) segs)
  /\ report
     = [ Line " SEGMENTATION ANALYSIS: {}" [Str (str_upper L segment_col)];
         Line "============================================================" [] ]
       ++ map (segment_line L df segment_col min_sample_size) segs
       ++ [Line "" []]
  /\ List.length report = (List.length segs + 3)%nat
  /\ (forall i s, nth_error segs i = Some s ->
        nth_error report (2 + i)
        = Some (segment_line L df segment_col min_sample_size s)).
Proof.
  intros segs report. unfold report, returned, printed.
  rewrite segmentation_analysis_run. cbn [fst snd]. fold segs.
  split; [apply NoDup_unique|].
  split; [exact In_segments_of|].
  split; [|split; [|split]].
  - eexists. split; [reflexivity|].
    rewrite map_map. cbn [tested_row segment]. apply map_id.
  - reflexivity.
  - cbn [app List.length]. rewrite length_app, length_map. cbn [List.length]. lia.
  - intros i s Hi. cbn [app Nat.add nth_error].
    rewrite nth_error_app1.
    + apply map_nth_error, Hi.
    + rewrite length_map. apply nth_error_Some. rewrite Hi. discriminate.
Qed.

(** X13.  Raising [min_sample_size] only removes rows: the frame returned at
    a higher minimum is the frame returned at a lower one, filtered to the
    rows whose two session counts reach the higher minimum; the rows that
    stay are unchanged. *)
Theorem segmentation_threshold_filters (m m' : Z) :
  (m <= m')%Z ->
  exists rows,
    returned (segmentation_analysis L df segment_col m) = Ok rows
    /\ returned (segmentation_analysis L df segment_col m')
       = Ok (filter (fun r => ge (control_sessions r) (PyInt m')
                              && ge (treatment_sessions r) (PyInt m')) rows).
Proof.
  intros Hle. unfold returned. rewrite !segmentation_analysis_run. cbn [fst].
  eexists. split; [reflexivity|]. f_equal.
  rewrite filter_of_map, filter_both. f_equal.
  apply filter_ext. intros seg. rewrite (gated_in_raise m m' seg Hle). reflexivity.
Qed.

(** X14.  A minimum below 5 has no effect: the gate also asks for five
    conversions per variant, which take five sessions, so every
    [min_sample_size <= 5] (zero and negative numbers included) gives the
    result and the report of [min_sample_size = 5]. *)
Theorem segmentation_small_threshold (m : Z) :
  (m <= 5)%Z ->
  run (segmentation_analysis L df segment_col m)
  = run (segmentation_analysis L df segment_col 5).
Proof.
  intros Hle. rewrite !segmentation_analysis_run.
  f_equal; [f_equal; f_equal|f_equal; f_equal].
  - apply filter_ext. intros seg. apply gated_in_small, Hle.
  - apply map_ext. intros seg. unfold segment_line.
    rewrite (gated_in_small m seg Hle). reflexivity.
Qed.

(** X15.  A segment is analysed from its own records alone: the analysis of
    the sub-frame of one segment of the data has that segment only, and it
    returns the row and prints the line that the analysis of the whole data
    has for that segment. *)
Theorem segmentation_segment_alone (min_sample_size : Z) (seg : string) :
  In seg (segments_of df segment_col) ->
  segments_of (in_segment segment_col seg df) segment_col = [seg]
  /\ run (segmentation_analysis L (in_segment segment_col seg df) segment_col
            min_sample_size)
     = (Ok (if gated_in df segment_col min_sample_size seg
            then [tested_row L df segment_col seg] else []),
        [ Line " SEGMENTATION ANALYSIS: {}" [Str (str_upper L segment_col)];
          Line (str_mul "=" 60) [];
          segment_line L df segment_col min_sample_size seg;
          Line "" [] ]).
Proof.
  intros Hin.
  assert (Hsegs : segments_of (in_segment segment_col seg df) segment_col = [seg]).
  { apply In_segments_of in Hin. destruct Hin as (r & Hr & Hs).
    unfold segments_of. apply unique_constant.
    - intros E. apply map_eq_nil in E.
      assert (Hr' : In r (in_segment segment_col seg df)).
      { apply filter_In. split; [exact Hr | apply String.eqb_eq, Hs]. }
      rewrite E in Hr'. contradiction.
    - intros y Hy. apply in_map_iff in Hy. destruct Hy as (r' & <- & Hr').
      apply filter_In in Hr'. apply String.eqb_eq, Hr'. }
  split; [exact Hsegs|].
  rewrite segmentation_analysis_run, Hsegs. cbn [filter map app].
  unfold segment_line. rewrite gated_in_alone.
  destruct (gated_in df segment_col min_sample_size seg); cbn [map];
    rewrite ?tested_row_alone; reflexivity.
Qed.

End SegmentsMore.

Section SegmentsExamples.

Lemma segmentation_threshold_filters_witness :
  (5 <= 6)%Z
  /\ exists rows,
       returned (segmentation_analysis Samples two_segments "device" 5) = Ok rows
       /\ returned (segmentation_analysis Samples two_segments "device" 6)
          = Ok (filter (fun r => ge (control_sessions r) (PyInt 6)
                                 && ge (treatment_sessions r) (PyInt 6)) rows).
Proof.
  split; [lia|].
  apply (segmentation_threshold_filters Samples two_segments "device" 5 6). lia.
Defined.

Lemma segmentation_small_threshold_witness :
  (-3 <= 5)%Z
  /\ run (segmentation_analysis Samples two_segments "device" (-3))
     = run (segmentation_analysis Samples two_segments "device" 5).
Proof.
  split; [lia|].
  apply (segmentation_small_threshold Samples two_segments "device" (-3)). lia.
Defined.

Lemma segmentation_segment_alone_witness :
  In "desktop"%string (segments_of two_segments "device")
  /\ segments_of (in_segment "device" "desktop" two_segments) "device" = ["desktop"%string]
  /\ run (segmentation_analysis Samples (in_segment "device" "desktop" two_segments)
            "device" 5)
     = (Ok (if gated_in two_segments "device" 5 "desktop"
            then [tested_row Samples two_segments "device" "desktop"] else []),
        [ Line " SEGMENTATION ANALYSIS: {}" [Str (str_upper Samples "device")];
          Line (str_mul "=" 60) [];
          segment_line Samples two_segments "device" 5 "desktop";
          Line "" [] ]).
Proof.
  assert (Hin : In "desktop"%string (segments_of two_segments "device"))
    by (right; left; reflexivity).
  split; [exact Hin|].
  apply (segmentation_segment_alone Samples two_segments "device" 5 "desktop" Hin).
Defined.

End SegmentsExamples.

(** ** The two analyses on the same records *)

Section Agreement.

#[local] Open Scope float_scope.

Variable L : Lib.

Lemma filter_keeps_all {A} (p : A -> bool) l :
  (forall x, In x l -> p x = true) -> filter p l = l.
Proof.
  induction l as [|x l IH]; intros H; [reflexivity|]. cbn [filter].
  rewrite (H x) by (left; reflexivity). f_equal. apply IH.
  intros y Hy. apply H. right. exact Hy.
Qed.

Lemma segment_group_whole (df : DataFrame) segment_col seg v :
  (forall r, In r df -> attr r segment_col = seg) ->
  segment_group df segment_col seg v = with_variant v df.
Proof.
  intros H. unfold segment_group, in_segment. rewrite filter_keeps_all; [reflexivity|].
  intros r Hr. apply String.eqb_eq, H, Hr.
Qed.

(** X16.  On data that is one segment passing the gate, the segment's row
    agrees with [analyze_conversion_rate] on the same data: the same
    p-value, the same absolute lift and, the control rate being positive,
    the same relative lift. *)
Theorem segmentation_agrees_with_analysis (df : DataFrame) (segment_col : string)
    (min_sample_size : Z) (seg : string) :
  (forall r, In r df -> attr r segment_col = seg) ->
  passes_gate df segment_col min_sample_size seg ->
  exists summary p lift relative row,
    returned (analyze_conversion_rate L df) = Ok (summary, p, lift, relative)
    /\ returned (segmentation_analysis L df segment_col min_sample_size) = Ok [row]
    /\ segment row = seg
    /\ p_value row = p
    /\ absolute_lift row = lift
    /\ (gt (control_rate row) (PyInt 0) = true -> relative_lift row = relative).
Proof.
  intros Hall Hgate.
  pose proof (passes_gate_sessions df segment_col min_sample_size seg Hgate) as [Hc Ht].
  rewrite (segment_group_whole df segment_col seg control Hall) in Hc.
  rewrite (segment_group_whole df segment_col seg treatment Hall) in Ht.
  assert (Hc' : with_variant control df <> []).
  { intros E. rewrite E in Hc. unfold len in Hc. cbn in Hc. lia. }
  assert (Ht' : with_variant treatment df <> []).
  { intros E. rewrite E in Ht. unfold len in Ht. cbn in Ht. lia. }
  destruct (analyze_run L df Hc' Ht') as (out & Hrun & _).
  assert (Hsegs : segments_of df segment_col = [seg]).
  { unfold segments_of. apply unique_constant.
    - intros E. apply map_eq_nil in E. subst df. apply Hc'. reflexivity.
    - intros y Hy. apply in_map_iff in Hy. destruct Hy as (r & <- & Hr).
      apply Hall, Hr. }
  do 4 eexists. exists (tested_row L df segment_col seg).
  unfold returned. rewrite Hrun, segmentation_analysis_run, Hsegs. cbn [fst filter].
  rewrite (proj2 (gated_in_iff df segment_col min_sample_size seg) Hgate).
  cbn [map]. unfold tested_row.
  rewrite !(segment_group_whole df segment_col seg control Hall).
  rewrite !(segment_group_whole df segment_col seg treatment Hall).
  cbn [segment p_value absolute_lift relative_lift control_rate].
  split; [reflexivity|]. split; [reflexivity|]. split; [reflexivity|].
  split; [reflexivity|]. split; [reflexivity|].
  unfold gt, lt. cbn [is_int andb to_float]. rewrite of_Z_0.
  intros Hpos. rewrite Hpos. reflexivity.
Qed.

End Agreement.

Section AgreementExample.

Lemma segmentation_agrees_with_analysis_witness :
  (forall r, In r mobile_only -> attr r "device" = "mobile"%string)
  /\ passes_gate mobile_only "device" 5 "mobile"
  /\ exists summary p lift relative row,
       returned (analyze_conversion_rate Samples mobile_only)
       = Ok (summary, p, lift, relative)
       /\ returned (segmentation_analysis Samples mobile_only "device" 5) = Ok [row]
       /\ segment row = "mobile"%string
       /\ p_value row = p
       /\ absolute_lift row = lift
       /\ (gt (control_rate row) (PyInt 0) = true -> relative_lift row = relative).
Proof.
  assert (Hall : forall r, In r mobile_only -> attr r "device" = "mobile"%string).
  { intros r Hr. unfold mobile_only in Hr. apply in_app_or in Hr.
    destruct Hr as [Hr|Hr]; apply repeat_spec in Hr; subst r; reflexivity. }
  assert (Hgate : passes_gate mobile_only "device" 5 "mobile").
  { apply gated_in_iff. reflexivity. }
  split; [exact Hall | split; [exact Hgate|]].
  apply (segmentation_agrees_with_analysis Samples mobile_only "device" 5 "mobile" Hall Hgate).
Defined.

End AgreementExample.
